(** * Pharmacy Partnership Analyzer: the revenue aggregation and
      tier-classification engine of [app.py] and
      [simulation_placement_thresholdcategory.py]

    The two scripts are straight-line pandas programs.  The embedding keeps
    their shape: a data frame is a list of column names together with a list
    of rows, a column access that names an absent column raises [KeyError],
    a name that was never bound raises [NameError], and every statement of
    the scripts is one binding of the run below.

    Modelling conventions.
    - A cell of a text column is [option string]; [None] is a missing value
      (NaN).  A comparison or [isin] on a missing value is false, a
      [groupby] drops rows whose key is missing, [sum] skips missing values
      and [nunique] does not count them.
    - Revenue and thresholds are exact integers ([Z]); [number_input] with
      an integer default returns an integer.
    - [groupby] sorts its group keys; strings are compared
      lexicographically, character by character.
    - A [groupby] on the ordered categorical [partnership_category] yields
      one group per category of [order], observed or not.
    - Pharmacy identifiers, tier labels and brands are strings; tier labels
      are data values different from the fixed column names of the derived
      frames.

    The definitions of the first sections are the engine on ordinary
    uploads: text identifiers, revenue that adds up exactly, tier labels
    that are no column names.  The section on dtypes and clashing names
    embeds what the scripts do beyond that: [observed=False] on a
    categorical identifier column, the two-key [groupby] on categorical
    keys, [reset_index] on a pivot that has a column named like the
    index, the suffixes of [merge], and [sum] on an [int64] or a
    [float64] revenue column.  The library is pandas 2: [observed]
    defaults to false, and a merge whose suffixes make a duplicate column
    raises. *)

From Stdlib Require Import List String Ascii ZArith Lia Bool Permutation.
From Stdlib Require Import OrderedTypeEx.
From Stdlib Require Import Sorted DecimalString DecimalNat.
From Stdlib Require Import PrimFloat.
Import ListNotations.

Open Scope string_scope.
Open Scope Z_scope.

(** ** Exceptions and the error monad *)

Inductive Exception : Type :=
| NameError (name : string)
| KeyError (column : string).

Inductive result (A : Type) : Type :=
| Ok (a : A)
| Raise (e : Exception).

Arguments Ok {A} a.
Arguments Raise {A} e.

Definition bind {A B : Type} (m : result A) (k : A -> result B) : result B :=
  match m with
  | Ok a => k a
  | Raise e => Raise e
  end.

Notation "x <- m ;; k" := (bind m (fun x => k))
  (at level 61, m at next level, right associativity).

Definition raises {A : Type} (m : result A) : Prop :=
  exists e, m = Raise e.

Definition succeeds {A : Type} (m : result A) : Prop :=
  exists a, m = Ok a.

(** ** Data model *)

(** One raw transaction row.  Every field is the cell of the column of the
    same name; the cell is ignored when the frame does not have the column. *)
Record Row : Type := mkRow {
  Channel : option string;
  Product_Type : option string;
  Causale : option string;
  Canale : option string;
  Out_of_Scope_Filter : option string;
  Cluster_Check : option string;
  Cod_CRM : option string;
  tier : option string;
  Brand : option string;
  Net_Price_1_Revenue : option Z
}.

Record DataFrame : Type := mkDataFrame {
  columns : list string;
  rows : list Row
}.

Definition col_Channel : string := "Channel".
Definition col_Product_Type : string := "Product_Type".
Definition col_Causale : string := "Causale".
Definition col_Canale : string := "Canale".
Definition col_Out_of_Scope_Filter : string :=
  Eval cbv in ("Out of Scope " ++ String (ascii_of_nat 10) "Filter").
Definition col_Cluster_Check : string := " Cluster Check ".
Definition col_Cod_CRM : string := "Cod CRM".
Definition col_tier : string := "tier".
Definition col_Brand : string := "Brand".
Definition col_Net_Price_1_Revenue : string := "Net Price 1 Revenue (Imponibile)".

(** [c in df.columns] *)
Definition has_column (df : DataFrame) (c : string) : bool :=
  existsb (String.eqb c) (columns df).

(** [df[c]]: the column as a series, or [KeyError]. *)
Definition getitem {A : Type} (df : DataFrame) (c : string) (field : Row -> A)
  : result (list A) :=
  if has_column df c then Ok (map field (rows df)) else Raise (KeyError c).

(** [series == value] *)
Definition key_is (k : string) (c : option string) : bool :=
  match c with
  | Some x => String.eqb x k
  | None => false
  end.

Definition series_eq (s : list (option string)) (v : string) : list bool :=
  map (key_is v) s.

Definition cell_isin (values : list string) (c : option string) : bool :=
  match c with
  | Some x => existsb (String.eqb x) values
  | None => false
  end.

(** [series.isin(values)] *)
Definition isin (s : list (option string)) (values : list string) : list bool :=
  map (cell_isin values) s.

(** [mask1 & mask2] *)
Fixpoint mask_and (m1 m2 : list bool) : list bool :=
  match m1, m2 with
  | b1 :: t1, b2 :: t2 => (b1 && b2) :: mask_and t1 t2
  | _, _ => []
  end.

Fixpoint select_rows (rs : list Row) (mask : list bool) : list Row :=
  match rs, mask with
  | r :: rs', b :: mask' =>
      if b then r :: select_rows rs' mask' else select_rows rs' mask'
  | _, _ => []
  end.

(** [df[mask]] *)
Definition boolean_index (df : DataFrame) (mask : list bool) : DataFrame :=
  {| columns := columns df; rows := select_rows (rows df) mask |}.

(** ** Record Filter *)

(** What the user picks in each of the five multiselect widgets, were the
    widget shown. *)
Record Selections : Type := mkSelections {
  pick_Channel : list string;
  pick_Product_Type : list string;
  pick_Causale : list string;
  pick_Canale : list string;
  pick_Out_of_Scope_Filter : list string
}.

(** [if c in df.columns: v = st.multiselect(c, ...)] for a name [v] that has no
    earlier binding: the name stays unbound when the column is absent. *)
Definition multiselect_if_present (df : DataFrame) (c : string)
  (picked : list string) : option (list string) :=
  if has_column df c then Some picked else None.

(** Reading a name that may be unbound. *)
Definition read_name (name : string) (v : option (list string))
  : result (list string) :=
  match v with
  | Some l => Ok l
  | None => Raise (NameError name)
  end.

(** Truth value of a list: [if values:] *)
Definition truthy (values : list string) : bool :=
  match values with
  | [] => false
  | _ :: _ => true
  end.

(** [if values: df = df[df[c].isin(values)]] *)
Definition apply_filter (df : DataFrame) (c : string)
  (field : Row -> option string) (values : list string) : result DataFrame :=
  if truthy values then
    s <- getitem df c field;;
    Ok (boolean_index df (isin s values))
  else Ok df.

(** Lines 31-56 of [app.py]. *)
Definition df_filtered (df : DataFrame) (sel : Selections) : result DataFrame :=
  let channels := if has_column df col_Channel then pick_Channel sel else [] in
  let products :=
    if has_column df col_Product_Type then pick_Product_Type sel else [] in
  let causale := multiselect_if_present df col_Causale (pick_Causale sel) in
  let canale := multiselect_if_present df col_Canale (pick_Canale sel) in
  let scope_filter :=
    multiselect_if_present df col_Out_of_Scope_Filter
      (pick_Out_of_Scope_Filter sel) in
  d <- apply_filter df col_Channel Channel channels;;
  d <- apply_filter d col_Product_Type Product_Type products;;
  v <- read_name "causale" causale;;
  d <- apply_filter d col_Causale Causale v;;
  v <- read_name "canale" canale;;
  d <- apply_filter d col_Canale Canale v;;
  v <- read_name "scope_filter" scope_filter;;
  d <- apply_filter d col_Out_of_Scope_Filter Out_of_Scope_Filter v;;
  Ok d.

(** The fixed eligibility rule, shared by both scripts
    ([app.py] lines 68-73). *)
Definition merged_pharmacies (df : DataFrame) : result DataFrame :=
  s1 <- getitem df col_Channel Channel;;
  s2 <- getitem df col_Causale Causale;;
  s3 <- getitem df col_Out_of_Scope_Filter Out_of_Scope_Filter;;
  s4 <- getitem df col_Cluster_Check Cluster_Check;;
  Ok (boolean_index df
        (mask_and (mask_and (mask_and (series_eq s1 "Independent Pharmacies")
                                      (series_eq s2 "Vendita"))
                            (series_eq s3 "In scope"))
                  (isin s4 [" 1.EL "; " 2.L "]))).

(** The filtered record set of [app.py]. *)
Definition record_filter (df : DataFrame) (sel : Selections) : result DataFrame :=
  d <- df_filtered df sel;;
  merged_pharmacies d.

(** ** Aggregator *)

Fixpoint dropna {A : Type} (l : list (option A)) : list A :=
  match l with
  | [] => []
  | Some x :: t => x :: dropna t
  | None :: t => dropna t
  end.

(** Insertion of a group key into the sorted list of distinct keys. *)
Fixpoint insert_key (k : string) (l : list string) : list string :=
  match l with
  | [] => [k]
  | h :: t =>
      match String.compare k h with
      | Lt => k :: l
      | Eq => l
      | Gt => h :: insert_key k t
      end
  end.

(** The group keys of a [groupby]: distinct, in increasing order. *)
Definition sorted_unique (l : list string) : list string :=
  fold_right insert_key [] l.

(** The rows of one group. *)
Definition group_rows (key : Row -> option string) (k : string)
  (rs : list Row) : list Row :=
  filter (fun r => key_is k (key r)) rs.

(** [sum] of a numeric series; missing values are skipped. *)
Definition sum_skipna (s : list (option Z)) : Z :=
  fold_right (fun c acc => match c with Some v => v + acc | None => acc end) 0 s.

(** [nunique] of a text series; missing values are not counted. *)
Definition nunique (s : list (option string)) : Z :=
  Z.of_nat (List.length (nodup string_dec (dropna s))).

(** [groupby('Cod CRM')['Net Price 1 Revenue (Imponibile)'].sum().reset_index(..)] *)
Definition groupby_sum (rs : list Row) : list (string * Z) :=
  map (fun k => (k, sum_skipna (map Net_Price_1_Revenue (group_rows Cod_CRM k rs))))
      (sorted_unique (dropna (map Cod_CRM rs))).

Definition all_pharmacy_revenue (m : DataFrame) : result (list (string * Z)) :=
  _ <- getitem m col_Cod_CRM Cod_CRM;;
  _ <- getitem m col_Net_Price_1_Revenue Net_Price_1_Revenue;;
  Ok (groupby_sum (rows m)).

Definition rev_tier23 (m : DataFrame) : result (list (string * Z)) :=
  s <- getitem m col_tier tier;;
  let d := boolean_index m (isin s ["Tier 2"; "Tier 3"]) in
  _ <- getitem d col_Cod_CRM Cod_CRM;;
  _ <- getitem d col_Net_Price_1_Revenue Net_Price_1_Revenue;;
  Ok (groupby_sum (rows d)).

Record TierCount : Type := mkTierCount {
  tc_Cod_CRM : string;
  tc_tier : string;
  num_products : Z
}.

Definition has_both_keys (r : Row) : bool :=
  match Cod_CRM r, tier r with
  | Some _, Some _ => true
  | _, _ => false
  end.

(** [groupby(['Cod CRM', 'tier'])['Brand'].nunique().reset_index(..)]: one row
    per pair of keys that occurs, in increasing order of the pair; rows with
    a missing key belong to no group. *)
Definition groupby_nunique (rs : list Row) : list TierCount :=
  let keyed := filter has_both_keys rs in
  flat_map
    (fun k =>
       let g := group_rows Cod_CRM k keyed in
       map (fun t => {| tc_Cod_CRM := k; tc_tier := t;
                        num_products := nunique (map Brand (group_rows tier t g)) |})
           (sorted_unique (dropna (map tier g))))
    (sorted_unique (dropna (map Cod_CRM keyed))).

Definition tier_counts (m : DataFrame) : result (list TierCount) :=
  _ <- getitem m col_Cod_CRM Cod_CRM;;
  _ <- getitem m col_tier tier;;
  _ <- getitem m col_Brand Brand;;
  Ok (groupby_nunique (rows m)).

(** A frame with one row per pharmacy and one numeric column per tier. *)
Record TierPivot : Type := mkTierPivot {
  tier_columns : list string;
  tier_rows : list (string * list (option Z))
}.

Definition lookup_count (tc : list TierCount) (k t : string) : option Z :=
  match find (fun c => String.eqb (tc_Cod_CRM c) k && String.eqb (tc_tier c) t) tc with
  | Some c => Some (num_products c)
  | None => None
  end.

(** [pivot(index='Cod CRM', columns='tier', values='num_products')] *)
Definition pivot (tc : list TierCount) : TierPivot :=
  let cols := sorted_unique (map tc_tier tc) in
  {| tier_columns := cols;
     tier_rows := map (fun k => (k, map (lookup_count tc k) cols))
                      (sorted_unique (map tc_Cod_CRM tc)) |}.

Definition fill_cell (v : Z) (c : option Z) : option Z :=
  match c with
  | Some x => Some x
  | None => Some v
  end.

(** [fillna(v)] *)
Definition fillna (v : Z) (p : TierPivot) : TierPivot :=
  {| tier_columns := tier_columns p;
     tier_rows := map (fun kr => (fst kr, map (fill_cell v) (snd kr))) (tier_rows p) |}.

Definition tier_counts_pivot_use (tc : list TierCount) : TierPivot :=
  fillna 0 (pivot tc).

(** Lookup of a key in a frame whose keys are distinct. *)
Fixpoint lookup_key {A : Type} (k : string) (l : list (string * A)) : option A :=
  match l with
  | [] => None
  | (k', a) :: t => if String.eqb k' k then Some a else lookup_key k t
  end.

(** A row of the two left merges on [Cod CRM]. *)
Record MergedRow : Type := mkMergedRow {
  mr_Cod_CRM : string;
  mr_total_net1rev_imponibile : Z;
  mr_tiers : list (option Z);
  tier23_net1rev_imponibile : option Z
}.

(** [all_pharmacy_revenue.merge(pivot, how="left").merge(rev_tier23, how="left")]:
    every left row is kept; the cells of a pharmacy that the right frame
    does not have are missing. *)
Definition merge_left (apr : list (string * Z)) (p : TierPivot)
  (r23 : list (string * Z)) : list MergedRow :=
  map (fun kv =>
         {| mr_Cod_CRM := fst kv;
            mr_total_net1rev_imponibile := snd kv;
            mr_tiers := match lookup_key (fst kv) (tier_rows p) with
                        | Some cells => cells
                        | None => map (fun _ => None) (tier_columns p)
                        end;
            tier23_net1rev_imponibile := lookup_key (fst kv) r23 |})
      apr.

(** The value of [frame.get(name, default)]: a column or the default. *)
Inductive Operand : Type :=
| Series (s : list (option Z))
| Scalar (z : Z).

Fixpoint index_of (name : string) (l : list string) : option nat :=
  match l with
  | [] => None
  | h :: t => if String.eqb h name then Some O
              else match index_of name t with
                   | Some i => Some (S i)
                   | None => None
                   end
  end.

(** [threshold_data.get(name, default)] for the name of a tier column. *)
Definition get (cols : list string) (rs : list MergedRow) (name : string)
  (default : Z) : Operand :=
  match index_of name cols with
  | Some i => Series (map (fun r => nth i (mr_tiers r) None) rs)
  | None => Scalar default
  end.

Definition add_cell (a b : option Z) : option Z :=
  match a, b with
  | Some x, Some y => Some (x + y)
  | _, _ => None
  end.

Fixpoint add_series (s1 s2 : list (option Z)) : list (option Z) :=
  match s1, s2 with
  | a :: t1, b :: t2 => add_cell a b :: add_series t1 t2
  | _, _ => []
  end.

(** [a + b] on columns and scalars. *)
Definition add (a b : Operand) : Operand :=
  match a, b with
  | Series s1, Series s2 => Series (add_series s1 s2)
  | Series s, Scalar z => Series (map (fun c => add_cell c (Some z)) s)
  | Scalar z, Series s => Series (map (fun c => add_cell (Some z) c) s)
  | Scalar x, Scalar y => Scalar (x + y)
  end.

Record ThresholdRow : Type := mkThresholdRow {
  td_merged : MergedRow;
  Tier_2_and_3 : option Z
}.

Record ThresholdData : Type := mkThresholdData {
  td_tier_columns : list string;
  td_rows : list ThresholdRow
}.

(** [frame[name] = value]: a column is laid along the rows, a scalar is
    broadcast. *)
Definition setitem (rs : list MergedRow) (v : Operand) : list ThresholdRow :=
  match v with
  | Series s =>
      map (fun rc => {| td_merged := fst rc; Tier_2_and_3 := snd rc |}) (combine rs s)
  | Scalar z =>
      map (fun r => {| td_merged := r; Tier_2_and_3 := Some z |}) rs
  end.

(** Lines 94-96 of [app.py]. *)
Definition threshold_data (apr : list (string * Z)) (p : TierPivot)
  (r23 : list (string * Z)) : ThresholdData :=
  let merged := merge_left apr p r23 in
  let cols := tier_columns p in
  {| td_tier_columns := cols;
     td_rows := setitem merged
                  (add (get cols merged "Tier 2" 0) (get cols merged "Tier 3" 0)) |}.

Record Aggregates : Type := mkAggregates {
  agg_all_pharmacy_revenue : list (string * Z);
  agg_rev_tier23 : list (string * Z);
  agg_tier_counts : list TierCount;
  agg_threshold_data : ThresholdData
}.

(** Lines 76-96 of [app.py]. *)
Definition aggregator (m : DataFrame) : result Aggregates :=
  apr <- all_pharmacy_revenue m;;
  r23 <- rev_tier23 m;;
  tc <- tier_counts m;;
  let p := tier_counts_pivot_use tc in
  Ok {| agg_all_pharmacy_revenue := apr;
        agg_rev_tier23 := r23;
        agg_tier_counts := tc;
        agg_threshold_data := threshold_data apr p r23 |}.

(** ** Classifier *)

Inductive Category : Type := Silver | Gold | Platinum | Unassigned.

Definition order : list Category := [Silver; Gold; Platinum; Unassigned].

Definition category_name (c : Category) : string :=
  match c with
  | Silver => "Silver"
  | Gold => "Gold"
  | Platinum => "Platinum"
  | Unassigned => "Unassigned"
  end.

Definition category_eqb (a b : Category) : bool :=
  match a, b with
  | Silver, Silver | Gold, Gold | Platinum, Platinum | Unassigned, Unassigned => true
  | _, _ => false
  end.

Record ThresholdConfig : Type := mkThresholdConfig {
  silver_min : Z;
  gold_min : Z;
  gold_max : Z;
  platinum_min : Z
}.

(** A row of [all_pharmacy_revenue] once it has its category column. *)
Record PharmacyRevenue : Type := mkPharmacyRevenue {
  pr_Cod_CRM : string;
  total_net1rev_imponibile : Z;
  partnership_category : Category
}.

(** [frame['partnership_category'] = c] *)
Definition set_category_column (c : Category) (t : list (string * Z))
  : list PharmacyRevenue :=
  map (fun kv => {| pr_Cod_CRM := fst kv;
                    total_net1rev_imponibile := snd kv;
                    partnership_category := c |}) t.

(** [frame.loc[mask, 'partnership_category'] = c] *)
Definition loc_assign (mask : PharmacyRevenue -> bool) (c : Category)
  (t : list PharmacyRevenue) : list PharmacyRevenue :=
  map (fun r => if mask r
                then {| pr_Cod_CRM := pr_Cod_CRM r;
                        total_net1rev_imponibile := total_net1rev_imponibile r;
                        partnership_category := c |}
                else r) t.

(** Lines 99-115 of [app.py]: four passes over the whole frame. *)
Definition assign_categories (th : ThresholdConfig) (apr : list (string * Z))
  : list PharmacyRevenue :=
  let t := set_category_column Unassigned apr in
  let t := loc_assign (fun r => total_net1rev_imponibile r >? silver_min th) Silver t in
  let t := loc_assign (fun r => (total_net1rev_imponibile r >=? gold_min th)
                                && (total_net1rev_imponibile r <? gold_max th)) Gold t in
  let t := loc_assign (fun r => total_net1rev_imponibile r >=? platinum_min th) Platinum t in
  t.

(** The same passes with the Gold pass left out. *)
Definition assign_categories_without_gold (th : ThresholdConfig)
  (apr : list (string * Z)) : list PharmacyRevenue :=
  let t := set_category_column Unassigned apr in
  let t := loc_assign (fun r => total_net1rev_imponibile r >? silver_min th) Silver t in
  let t := loc_assign (fun r => total_net1rev_imponibile r >=? platinum_min th) Platinum t in
  t.

(** The classification as the specification words it: the rules in their
    fixed order, and the category of the last rule that matches. *)
Definition rules (th : ThresholdConfig) : list ((Z -> bool) * Category) :=
  [ (fun rev => rev >? silver_min th, Silver);
    (fun rev => (rev >=? gold_min th) && (rev <? gold_max th), Gold);
    (fun rev => rev >=? platinum_min th, Platinum) ].

Definition last_matching_rule (th : ThresholdConfig) (rev : Z) : Category :=
  match find (fun rule => fst rule rev) (rev_append (rules th) []) with
  | Some rule => snd rule
  | None => Unassigned
  end.

(** ** Table Builder *)

Definition in_category (c : Category) (r : PharmacyRevenue) : bool :=
  category_eqb (partnership_category r) c.

(** [groupby('partnership_category')['Cod CRM'].apply(list)] *)
Definition category_table (t : list PharmacyRevenue) : list (Category * list string) :=
  map (fun c => (c, map pr_Cod_CRM (filter (in_category c) t))) order.

Record CategoryPivot : Type := mkCategoryPivot {
  cp_columns : list Category;
  cp_rows : list (list (option string))
}.

Definition longest (ct : list (Category * list string)) : nat :=
  fold_right (fun cl n => Nat.max (List.length (snd cl)) n) O ct.

(** [pd.concat(category_series, axis=1).reset_index(drop=True)]: one column
    per category, padded with missing cells to the longest one. *)
Definition category_table_pivot (ct : list (Category * list string)) : CategoryPivot :=
  {| cp_columns := map fst ct;
     cp_rows := map (fun i => map (fun cl => nth_error (snd cl) i) ct)
                    (seq O (longest ct)) |}.

Record SummaryRow : Type := mkSummaryRow {
  sr_partnership_category : string;
  num_pharmacies : Z;
  total_revenue : Z
}.

Definition sum_Z (l : list Z) : Z := fold_right Z.add 0 l.

(** [groupby('partnership_category').agg(count, sum).reset_index()] *)
Definition summary_by_category (t : list PharmacyRevenue) : list SummaryRow :=
  map (fun c =>
         let g := filter (in_category c) t in
         {| sr_partnership_category := category_name c;
            num_pharmacies := Z.of_nat (List.length g);
            total_revenue := sum_Z (map total_net1rev_imponibile g) |})
      order.

(** [summary_table.query("partnership_category != 'Unassigned'")] *)
Definition no_unassigned (s : list SummaryRow) : list SummaryRow :=
  filter (fun r => negb (String.eqb (sr_partnership_category r) "Unassigned")) s.

Definition total_label : string := "Total Net 1 Rev Imponibile (ex-Unassigned)".

Definition total_row (s : list SummaryRow) : SummaryRow :=
  {| sr_partnership_category := total_label;
     num_pharmacies := sum_Z (map num_pharmacies s);
     total_revenue := sum_Z (map total_revenue s) |}.

(** Lines 122-135 of [app.py]. *)
Definition summary_table (t : list PharmacyRevenue) : list SummaryRow :=
  let s := summary_by_category t in
  s ++ [total_row (no_unassigned s)].

(** ** The engine and the two scripts *)

Record Outputs : Type := mkOutputs {
  out_all_pharmacy_revenue : list PharmacyRevenue;
  out_category_table_pivot : CategoryPivot;
  out_summary_table : list SummaryRow
}.

(** Classifier and Table Builder, from the revenue frame. *)
Definition build_tables (th : ThresholdConfig) (apr : list (string * Z)) : Outputs :=
  let t := assign_categories th apr in
  {| out_all_pharmacy_revenue := t;
     out_category_table_pivot := category_table_pivot (category_table t);
     out_summary_table := summary_table t |}.

(** Everything after the record filter: [threshold_data] is computed, and
    the tables are built from [all_pharmacy_revenue]. *)
Definition engine (th : ThresholdConfig) (m : DataFrame) : result Outputs :=
  agg <- aggregator m;;
  Ok (build_tables th (agg_all_pharmacy_revenue agg)).

(** [app.py] *)
Definition app_run (df : DataFrame) (sel : Selections) (th : ThresholdConfig)
  : result Outputs :=
  m <- record_filter df sel;;
  engine th m.

(** [simulation_placement_thresholdcategory.py] *)
Definition simulation_run (df : DataFrame) (th : ThresholdConfig) : result Outputs :=
  m <- merged_pharmacies df;;
  engine th m.

(** ** Predicates used to state the properties *)

(** A cell passes an inclusion list when no list was supplied or the list
    has the cell's value. *)
Definition passes (values : list string) (c : option string) : bool :=
  negb (truthy values) || cell_isin values c.

(** The inclusion list in force for a column: what was picked in its
    widget, and nothing when the table has no such column (no widget). *)
Definition supplied (df : DataFrame) (c : string) (picked : list string)
  : list string :=
  if has_column df c then picked else [].

Definition passes_inclusion_lists (df : DataFrame) (sel : Selections) (r : Row) : bool :=
  passes (supplied df col_Channel (pick_Channel sel)) (Channel r)
  && passes (supplied df col_Product_Type (pick_Product_Type sel)) (Product_Type r)
  && passes (supplied df col_Causale (pick_Causale sel)) (Causale r)
  && passes (supplied df col_Canale (pick_Canale sel)) (Canale r)
  && passes (supplied df col_Out_of_Scope_Filter (pick_Out_of_Scope_Filter sel))
            (Out_of_Scope_Filter r).

(** The fixed eligibility rule on one row. *)
Definition eligible (r : Row) : bool :=
  key_is "Independent Pharmacies" (Channel r)
  && key_is "Vendita" (Causale r)
  && key_is "In scope" (Out_of_Scope_Filter r)
  && cell_isin [" 1.EL "; " 2.L "] (Cluster_Check r).

(** The columns the record filter of [app.py] reads. *)
Definition filter_columns : list string :=
  [col_Channel; col_Causale; col_Canale; col_Out_of_Scope_Filter; col_Cluster_Check].

(** The four columns of the fixed eligibility rule. *)
Definition fixed_rule_columns : list string :=
  [col_Channel; col_Causale; col_Out_of_Scope_Filter; col_Cluster_Check].

(** The columns the aggregator reads. *)
Definition aggregator_columns : list string :=
  [col_Cod_CRM; col_Net_Price_1_Revenue; col_tier; col_Brand].

Definition has_columns (df : DataFrame) (cs : list string) : bool :=
  forallb (has_column df) cs.

(** Number of distinct products of pharmacy [k] in tier [t]. *)
Definition distinct_products (rs : list Row) (k t : string) : Z :=
  nunique (map Brand (group_rows tier t (group_rows Cod_CRM k rs))).

(** Number of pharmacies and revenue of one category. *)
Definition category_count (c : Category) (t : list PharmacyRevenue) : Z :=
  Z.of_nat (List.length (filter (in_category c) t)).

Definition category_revenue (c : Category) (t : list PharmacyRevenue) : Z :=
  sum_Z (map total_net1rev_imponibile (filter (in_category c) t)).

Definition summary_row_of (c : Category) (t : list PharmacyRevenue) : SummaryRow :=
  {| sr_partnership_category := category_name c;
     num_pharmacies := category_count c t;
     total_revenue := category_revenue c t |}.

(** What the engine returns when no pharmacy is left. *)
Definition empty_outputs : Outputs :=
  {| out_all_pharmacy_revenue := [];
     out_category_table_pivot := {| cp_columns := order; cp_rows := [] |};
     out_summary_table :=
       [ mkSummaryRow "Silver" 0 0; mkSummaryRow "Gold" 0 0;
         mkSummaryRow "Platinum" 0 0; mkSummaryRow "Unassigned" 0 0;
         mkSummaryRow total_label 0 0 ] |}.

(** The operand that [get] contributes on one row: the cell of the tier
    column, or the default 0 when the frame has no such column. *)
Definition tier_cell (cols : list string) (mr : MergedRow) (name : string) : option Z :=
  match index_of name cols with
  | Some i => nth i (mr_tiers mr) None
  | None => Some 0
  end.

(** ** Concrete inputs *)

Definition all_columns : list string :=
  [col_Channel; col_Product_Type; col_Causale; col_Canale; col_Out_of_Scope_Filter;
   col_Cluster_Check; col_Cod_CRM; col_tier; col_Brand; col_Net_Price_1_Revenue].

(** An eligible sale row. *)
Definition sale (cod : string) (t : option string) (b : string) (v : Z) : Row :=
  {| Channel := Some "Independent Pharmacies"; Product_Type := Some "OTC";
     Causale := Some "Vendita"; Canale := Some "Retail";
     Out_of_Scope_Filter := Some "In scope"; Cluster_Check := Some " 1.EL ";
     Cod_CRM := Some cod; tier := t; Brand := Some b;
     Net_Price_1_Revenue := Some v |}.

(** A return row: right channel, wrong transaction type. *)
Definition refund (cod : string) (v : Z) : Row :=
  {| Channel := Some "Independent Pharmacies"; Product_Type := Some "OTC";
     Causale := Some "Reso"; Canale := Some "Retail";
     Out_of_Scope_Filter := Some "In scope"; Cluster_Check := Some " 2.L ";
     Cod_CRM := Some cod; tier := Some "Tier 2"; Brand := Some "x";
     Net_Price_1_Revenue := Some v |}.

Definition no_picks : Selections := mkSelections [] [] [] [] [].

Definition default_thresholds : ThresholdConfig := mkThresholdConfig 1000 1000 2000 2000.

Definition example_rows : list Row :=
  [ sale "B" (Some "Tier 2") "x" 1500;
    sale "A" None "y" 500;
    sale "C" (Some "Tier 3") "z" 2500;
    refund "C" 70;
    sale "B" (Some "Tier 2") "w" 10;
    sale "B" (Some "Tier 1") "w" 10 ].

Definition example_table : DataFrame :=
  {| columns := all_columns; rows := example_rows |}.

(** The same table without its [Canale] column. *)
Definition table_without_Canale : DataFrame :=
  {| columns := [col_Channel; col_Product_Type; col_Causale; col_Out_of_Scope_Filter;
                 col_Cluster_Check; col_Cod_CRM; col_tier; col_Brand;
                 col_Net_Price_1_Revenue];
     rows := example_rows |}.

(** The same table without its [Product_Type] column. *)
Definition table_without_Product_Type : DataFrame :=
  {| columns := [col_Channel; col_Causale; col_Canale; col_Out_of_Scope_Filter;
                 col_Cluster_Check; col_Cod_CRM; col_tier; col_Brand;
                 col_Net_Price_1_Revenue];
     rows := example_rows |}.

(** Picks that restate the fixed rule on two of the optional filters. *)
Definition example_picks : Selections :=
  mkSelections ["Independent Pharmacies"] [] [] ["Retail"] [].

(** The filtered record set of [example_table]. *)
Definition example_filtered : DataFrame :=
  {| columns := all_columns;
     rows := [ sale "B" (Some "Tier 2") "x" 1500;
               sale "A" None "y" 500;
               sale "C" (Some "Tier 3") "z" 2500;
               sale "B" (Some "Tier 2") "w" 10;
               sale "B" (Some "Tier 1") "w" 10 ] |}.

(** Thresholds whose Gold range starts where Platinum starts. *)
Definition overlapping_thresholds : ThresholdConfig := mkThresholdConfig 1000 2000 3000 2000.

(** Thresholds with [gold_max < gold_min]. *)
Definition inverted_thresholds : ThresholdConfig := mkThresholdConfig 1000 2000 1500 3000.

Definition example_revenue : list (string * Z) :=
  [("A", 1500); ("B", 2500); ("C", 500)].

(** A classified frame with a non-empty Unassigned group. *)
Definition example_classified : list PharmacyRevenue :=
  [ mkPharmacyRevenue "A" 500 Unassigned; mkPharmacyRevenue "B" 1520 Gold;
    mkPharmacyRevenue "C" 2500 Platinum; mkPharmacyRevenue "D" 1200 Gold ].

(** A table whose rows are all returns: its filtered record set is
    empty. *)
Definition returns_only_table : DataFrame :=
  {| columns := all_columns; rows := [refund "A" 10; refund "B" 20] |}.

(** The rows of [example_filtered] with other tier labels and brands. *)
Definition example_relabelled : DataFrame :=
  {| columns := all_columns;
     rows := [ sale "B" (Some "Tier 3") "p" 1500;
               sale "A" (Some "Tier 2") "q" 500;
               sale "C" None "r" 2500;
               sale "B" (Some "Tier 1") "p" 10;
               sale "B" (Some "Tier 1") "s" 10 ] |}.

(** The rows of [example_filtered] in another order. *)
Definition example_reordered : DataFrame :=
  {| columns := all_columns;
     rows := [ sale "A" None "y" 500;
               sale "B" (Some "Tier 2") "x" 1500;
               sale "B" (Some "Tier 2") "w" 10;
               sale "C" (Some "Tier 3") "z" 2500;
               sale "B" (Some "Tier 1") "w" 10 ] |}.

(** ** The script [app.py] as a whole

    Lines 31-42: each multiselect is offered [sorted(df[c].unique())].
    Sorting compares the distinct values of the column, and text does not
    compare with a missing value: building the widget of a column that has
    both raises [TypeError].  A column of text only, or of missing values
    only, sorts. *)

Definition is_missing {A : Type} (c : option A) : bool :=
  match c with
  | Some _ => false
  | None => true
  end.

Definition sortable_column (df : DataFrame) (c : string)
  (field : Row -> option string) : bool :=
  negb (has_column df c)
  || forallb (fun r => negb (is_missing (field r))) (rows df)
  || forallb (fun r => is_missing (field r)) (rows df).

Definition widgets_sortable (df : DataFrame) : bool :=
  sortable_column df col_Channel Channel
  && sortable_column df col_Product_Type Product_Type
  && sortable_column df col_Causale Causale
  && sortable_column df col_Canale Canale
  && sortable_column df col_Out_of_Scope_Filter Out_of_Scope_Filter.

Inductive ScriptResult : Type :=
| Tables (out : Outputs)
| TypeError_in_sorted
| Aborted (e : Exception).

(** One execution of [app.py] on an uploaded table: the widgets, then the
    filters and the engine. *)
Definition app_script (df : DataFrame) (sel : Selections) (th : ThresholdConfig)
  : ScriptResult :=
  if widgets_sortable df then
    match app_run df sel th with
    | Ok out => Tables out
    | Raise e => Aborted e
    end
  else TypeError_in_sorted.

(** One execution of the sibling script, which has no widget on the
    table. *)
Definition simulation_script (df : DataFrame) (th : ThresholdConfig) : ScriptResult :=
  match simulation_run df th with
  | Ok out => Tables out
  | Raise e => Aborted e
  end.


(** ** Run Store

    Lines 9-11 and 147-203 of [app.py].  The session state holds a
    dictionary from run identifiers to run records; a dictionary keeps its
    keys in insertion order, and an assignment to a key it already has
    replaces the value in place. *)

Record RunRecord : Type := mkRunRecord {
  run_timestamp : Z;
  run_filters_Channel : list string;
  run_filters_Product_Type : list string;
  run_thresholds : ThresholdConfig;
  run_all_pharmacy_revenue : list PharmacyRevenue;
  run_category_table_pivot : CategoryPivot;
  run_summary_table : list SummaryRow
}.

(** [d[k] = v] *)
Fixpoint dict_set {A : Type} (k : string) (v : A) (d : list (string * A))
  : list (string * A) :=
  match d with
  | [] => [(k, v)]
  | (k', v') :: t =>
      if String.eqb k' k then (k', v) :: t else (k', v') :: dict_set k v t
  end.

(** [f"run_{n}"] *)
Definition run_name (n : nat) : string :=
  "run_" ++ NilEmpty.string_of_uint (Nat.to_uint n).

Inductive Button : Type :=
| Store_this_run
| Clear_all_stored_runs
| No_button.

(** One execution of the script: the table read from the uploaded file
    ([None] when no file is uploaded or the script stopped on its format),
    the widget values, the button that triggered the execution and the
    clock. *)
Record Rerun : Type := mkRerun {
  uploaded_file : option DataFrame;
  picks : Selections;
  sidebar : ThresholdConfig;
  pressed : Button;
  clock : Z
}.

(** The effect of one execution on [st.session_state['runs']].  Both
    buttons come after the tables: an execution that raises before them
    leaves the stored runs as they were. *)
Definition rerun (e : Rerun) (runs : list (string * RunRecord))
  : list (string * RunRecord) :=
  match uploaded_file e with
  | None => runs
  | Some df =>
      match app_script df (picks e) (sidebar e) with
      | TypeError_in_sorted | Aborted _ => runs
      | Tables out =>
          match pressed e with
          | Store_this_run =>
              dict_set (run_name (S (List.length runs)))
                {| run_timestamp := clock e;
                   run_filters_Channel :=
                     supplied df col_Channel (pick_Channel (picks e));
                   run_filters_Product_Type :=
                     supplied df col_Product_Type (pick_Product_Type (picks e));
                   run_thresholds := sidebar e;
                   run_all_pharmacy_revenue := out_all_pharmacy_revenue out;
                   run_category_table_pivot := out_category_table_pivot out;
                   run_summary_table := out_summary_table out |}
                runs
          | Clear_all_stored_runs => []
          | No_button => runs
          end
      end
  end.

(** A session: the executions in order, from the empty dictionary. *)
Definition session (es : list Rerun) : list (string * RunRecord) :=
  fold_left (fun runs e => rerun e runs) es [].



(** ** Further predicates and inputs *)

Definition string_lt (a b : string) : Prop := String.compare a b = Lt.

Definition in_tier23 (r : Row) : bool :=
  cell_isin ["Tier 2"; "Tier 3"] (tier r).

(** The business order of the partnership tiers. *)
Definition tier_rank (c : Category) : Z :=
  match c with
  | Unassigned => 0
  | Silver => 1
  | Gold => 2
  | Platinum => 3
  end.

(** Column [i] of the category pivot, top to bottom. *)
Definition pivot_column (p : CategoryPivot) (i : nat) : list (option string) :=
  map (fun row => nth i row None) (cp_rows p).

(** A user filter is in conflict with the fixed rule when it is supplied
    and leaves out the one value the rule accepts. *)
Definition conflicts (values : list string) (required : string) : bool :=
  truthy values && negb (existsb (String.eqb required) values).

(** Thresholds with a gap between the Gold and the Platinum range. *)
Definition gap_thresholds : ThresholdConfig := mkThresholdConfig 1000 1000 2000 3000.

(** A sale through another channel. *)
Definition hospital_sale (cod : string) (v : Z) : Row :=
  {| Channel := Some "Hospitals"; Product_Type := Some "OTC";
     Causale := Some "Vendita"; Canale := Some "Direct";
     Out_of_Scope_Filter := Some "In scope"; Cluster_Check := Some " 1.EL ";
     Cod_CRM := Some cod; tier := Some "Tier 2"; Brand := Some "x";
     Net_Price_1_Revenue := Some v |}.

Definition mixed_table : DataFrame :=
  {| columns := all_columns; rows := hospital_sale "H" 900 :: example_rows |}.

(** A table whose [Canale] column has text and a missing cell. *)
Definition table_with_blank_Canale : DataFrame :=
  {| columns := all_columns;
     rows := [ sale "A" (Some "Tier 2") "x" 1500;
               {| Channel := Some "Independent Pharmacies"; Product_Type := Some "OTC";
                  Causale := Some "Vendita"; Canale := None;
                  Out_of_Scope_Filter := Some "In scope";
                  Cluster_Check := Some " 1.EL ";
                  Cod_CRM := Some "B"; tier := Some "Tier 3"; Brand := Some "y";
                  Net_Price_1_Revenue := Some 2500 |} ] |}.

Definition hospital_picks : Selections := mkSelections ["Hospitals"] [] [] [] [].



(** The pair of keys of a row of [tier_counts]. *)
Definition tc_keys (c : TierCount) : string * string := (tc_Cod_CRM c, tc_tier c).


(** ** Dtypes and clashing names

    Lines 76-96 once more, with what they do beyond text identifiers and
    tier labels that are no column names: [observed=False] on a categorical
    identifier column, the default of [observed] on the two-key [groupby],
    [reset_index] on a pivot that has a column named like its index, and
    the suffixes of [merge].  The definitions above are these on text
    identifiers and labels that clash with no column name; the revenue
    stays an exact integer here, and the sum of an [int64] or a [float64]
    column follows below. *)

(** The dtype of a key column: text, or a categorical with its categories
    in their order (a parquet upload can carry one). *)
Inductive KeyDtype : Type :=
| Object
| Categorical (categories : list string).

(** The group keys of a [groupby] that shows unobserved categories: the
    distinct values in increasing order, or every category, observed or
    not, in category order. *)
Definition group_index (dt : KeyDtype) (keys : list (option string)) : list string :=
  match dt with
  | Object => sorted_unique (dropna keys)
  | Categorical categories => categories
  end.

(** [groupby('Cod CRM', observed=False)[...].sum().reset_index(..)]
    (lines 77 and 83); the sum of a group without rows is 0. *)
Definition groupby_sum_observed_False (dt : KeyDtype) (rs : list Row)
  : list (string * Z) :=
  map (fun k => (k, sum_skipna (map Net_Price_1_Revenue (group_rows Cod_CRM k rs))))
      (group_index dt (map Cod_CRM rs)).

(** [groupby(['Cod CRM', 'tier'])['Brand'].nunique().reset_index(..)]
    (line 88), which leaves [observed] at its default: as soon as one key
    is categorical the result has every pair of a group key of the one
    column and a group key of the other, with count 0 for a pair that no
    row has. *)
Definition groupby_nunique_default (dt dt_tier : KeyDtype) (rs : list Row)
  : list TierCount :=
  match dt, dt_tier with
  | Object, Object => groupby_nunique rs
  | _, _ =>
      flat_map
        (fun k => map (fun t => {| tc_Cod_CRM := k; tc_tier := t;
                                   num_products := distinct_products rs k t |})
                      (group_index dt_tier (map tier rs)))
        (group_index dt (map Cod_CRM rs))
  end.

(** How an execution can stop. *)
Inductive Fault : Type :=
| TypeError_sorted
| ValueError_cannot_insert (column : string)
| MergeError_duplicate_columns
| Python_exception (e : Exception).

Inductive Ending (A : Type) : Type :=
| Finished (a : A)
| Stopped (f : Fault).

Arguments Finished {A} a.
Arguments Stopped {A} f.

Definition finishes {A : Type} (e : Ending A) : Prop := exists a, e = Finished a.

(** A frame with the [Cod CRM] column and, beside it, numeric columns by
    name. *)
Record KeyedFrame : Type := mkKeyedFrame {
  kf_columns : list string;
  kf_rows : list (string * list (option Z))
}.

(** The frame of [series.reset_index(name=..)] after a [groupby] sum. *)
Definition frame_of_sums (name : string) (sums : list (string * Z)) : KeyedFrame :=
  {| kf_columns := [name];
     kf_rows := map (fun kv => (fst kv, [Some (snd kv)])) sums |}.

(** [pivot.reset_index()] inserts the index as a column named [Cod CRM];
    it raises [ValueError] when the pivot already has a column of that
    name, that is when [Cod CRM] is one of the tier labels. *)
Definition reset_index (p : TierPivot) : Ending KeyedFrame :=
  if existsb (String.eqb col_Cod_CRM) (tier_columns p)
  then Stopped (ValueError_cannot_insert col_Cod_CRM)
  else Finished {| kf_columns := tier_columns p; kf_rows := tier_rows p |}.

(** A column name that both frames of a merge have gets a suffix. *)
Definition suffixed (overlap : list string) (suffix c : string) : string :=
  if existsb (String.eqb c) overlap then c ++ suffix else c.

(** [index.duplicated()]: every occurrence of a name but its first. *)
Fixpoint duplicated_from (seen l : list string) : list bool :=
  match l with
  | [] => []
  | c :: t => existsb (String.eqb c) seen :: duplicated_from (c :: seen) t
  end.

Definition duplicated (l : list string) : list bool := duplicated_from [] l.

(** Whether the suffixes turned a name into a duplicate. *)
Definition new_duplicates (old new : list string) : bool :=
  existsb (fun nb => fst nb && negb (snd nb)) (combine (duplicated new) (duplicated old)).

(** [left.merge(right, on="Cod CRM", how="left")] for a right frame whose
    identifiers are distinct: every left row is kept, the cells of a
    pharmacy that the right frame does not have are missing, and a name
    that both have beside [Cod CRM] gets [_x] on the left and [_y] on the
    right; it raises [MergeError] when that makes a duplicate. *)
Definition merge (left right : KeyedFrame) : Ending KeyedFrame :=
  let overlap :=
    filter (fun c => existsb (String.eqb c) (kf_columns right)) (kf_columns left) in
  let llabels := map (suffixed overlap "_x") (kf_columns left) in
  let rlabels := map (suffixed overlap "_y") (kf_columns right) in
  if new_duplicates (kf_columns left) llabels
     || new_duplicates (kf_columns right) rlabels
  then Stopped MergeError_duplicate_columns
  else Finished
         {| kf_columns := (llabels ++ rlabels)%list;
            kf_rows :=
              map (fun kr =>
                     (fst kr,
                      (snd kr ++ match lookup_key (fst kr) (kf_rows right) with
                                 | Some cells => cells
                                 | None => map (fun _ => None) (kf_columns right)
                                 end)%list))
                  (kf_rows left) |}.

(** [frame.get(name, default)] *)
Definition get_column (f : KeyedFrame) (name : string) (default : Z) : Operand :=
  match index_of name (kf_columns f) with
  | Some i => Series (map (fun kr => nth i (snd kr) None) (kf_rows f))
  | None => Scalar default
  end.

Fixpoint replace_nth {A : Type} (i : nat) (a : A) (l : list A) : list A :=
  match l, i with
  | [], _ => []
  | _ :: t, O => a :: t
  | h :: t, S j => h :: replace_nth j a t
  end.

(** [frame[name] = value]: the column of that name is replaced where it
    is, and a new name is appended. *)
Definition set_column (f : KeyedFrame) (name : string) (v : Operand) : KeyedFrame :=
  let cells := match v with
               | Series s => s
               | Scalar z => map (fun _ => Some z) (kf_rows f)
               end in
  match index_of name (kf_columns f) with
  | Some i =>
      {| kf_columns := kf_columns f;
         kf_rows := map (fun rc => (fst (fst rc), replace_nth i (snd rc) (snd (fst rc))))
                        (combine (kf_rows f) cells) |}
  | None =>
      {| kf_columns := (kf_columns f ++ [name])%list;
         kf_rows := map (fun rc => (fst (fst rc), (snd (fst rc) ++ [snd rc])%list))
                        (combine (kf_rows f) cells) |}
  end.

(** Lines 94-96. *)
Definition threshold_data_frame (apr : list (string * Z)) (p : KeyedFrame)
  (r23 : list (string * Z)) : Ending KeyedFrame :=
  match merge (frame_of_sums "total_net1rev_imponibile" apr) p with
  | Stopped f => Stopped f
  | Finished m1 =>
      match merge m1 (frame_of_sums "tier23_net1rev_imponibile" r23) with
      | Stopped f => Stopped f
      | Finished m2 =>
          Finished (set_column m2 "Tier 2 & 3"
                      (add (get_column m2 "Tier 2" 0) (get_column m2 "Tier 3" 0)))
      end
  end.

Definition all_pharmacy_revenue_dtype (dt : KeyDtype) (m : DataFrame)
  : result (list (string * Z)) :=
  _ <- getitem m col_Cod_CRM Cod_CRM;;
  _ <- getitem m col_Net_Price_1_Revenue Net_Price_1_Revenue;;
  Ok (groupby_sum_observed_False dt (rows m)).

Definition rev_tier23_dtype (dt : KeyDtype) (m : DataFrame)
  : result (list (string * Z)) :=
  s <- getitem m col_tier tier;;
  let d := boolean_index m (isin s ["Tier 2"; "Tier 3"]) in
  _ <- getitem d col_Cod_CRM Cod_CRM;;
  _ <- getitem d col_Net_Price_1_Revenue Net_Price_1_Revenue;;
  Ok (groupby_sum_observed_False dt (rows d)).

Definition tier_counts_dtype (dt dt_tier : KeyDtype) (m : DataFrame)
  : result (list TierCount) :=
  _ <- getitem m col_Cod_CRM Cod_CRM;;
  _ <- getitem m col_tier tier;;
  _ <- getitem m col_Brand Brand;;
  Ok (groupby_nunique_default dt dt_tier (rows m)).

Record Frames : Type := mkFrames {
  fr_all_pharmacy_revenue : list (string * Z);
  fr_rev_tier23 : list (string * Z);
  fr_tier_counts : list TierCount;
  fr_threshold_data : KeyedFrame
}.

Definition raised {A : Type} (e : Exception) : Ending A := Stopped (Python_exception e).

(** Lines 76-96 for an identifier column of dtype [dt] and a text tier
    column. *)
Definition aggregator_dtype (dt : KeyDtype) (m : DataFrame) : Ending Frames :=
  match all_pharmacy_revenue_dtype dt m with
  | Raise e => raised e
  | Ok apr =>
      match rev_tier23_dtype dt m with
      | Raise e => raised e
      | Ok r23 =>
          match tier_counts_dtype dt Object m with
          | Raise e => raised e
          | Ok tc =>
              match reset_index (fillna 0 (pivot tc)) with
              | Stopped f => Stopped f
              | Finished p =>
                  match threshold_data_frame apr p r23 with
                  | Stopped f => Stopped f
                  | Finished td =>
                      Finished {| fr_all_pharmacy_revenue := apr;
                                  fr_rev_tier23 := r23;
                                  fr_tier_counts := tc;
                                  fr_threshold_data := td |}
                  end
              end
          end
      end
  end.

(** Everything after the record filter. *)
Definition engine_dtype (dt : KeyDtype) (th : ThresholdConfig) (m : DataFrame)
  : Ending Outputs :=
  match aggregator_dtype dt m with
  | Stopped f => Stopped f
  | Finished fr => Finished (build_tables th (fr_all_pharmacy_revenue fr))
  end.

(** One execution of [app.py] on an uploaded table: the widgets, the
    record filter, the engine. *)
Definition app_script_dtype (dt : KeyDtype) (df : DataFrame) (sel : Selections)
  (th : ThresholdConfig) : Ending Outputs :=
  if widgets_sortable df then
    match record_filter df sel with
    | Raise e => raised e
    | Ok m => engine_dtype dt th m
    end
  else Stopped TypeError_sorted.

(** One execution of the sibling script. *)
Definition simulation_script_dtype (dt : KeyDtype) (df : DataFrame)
  (th : ThresholdConfig) : Ending Outputs :=
  match merged_pharmacies df with
  | Raise e => raised e
  | Ok m => engine_dtype dt th m
  end.

(** The column names that a tier label can clash with: [Cod CRM] stops
    [reset_index], and the two others get a suffix in a merge. *)
Definition reserved_names : list string :=
  [col_Cod_CRM; "total_net1rev_imponibile"; "tier23_net1rev_imponibile"].

(** No row carries a reserved name as its tier label. *)
Definition labels_clear (rs : list Row) : bool :=
  forallb (fun r => negb (cell_isin reserved_names (tier r))) rs.

(** The cells of a categorical column are categories or missing. *)
Definition cells_in (dt : KeyDtype) (keys : list (option string)) : Prop :=
  match dt with
  | Object => True
  | Categorical categories => forall k, In (Some k) keys -> In k categories
  end.

(** The categories of a categorical are distinct. *)
Definition categories_distinct (dt : KeyDtype) : Prop :=
  match dt with
  | Object => True
  | Categorical categories => NoDup categories
  end.

(** *** The sum of a numeric column

    The group sum of pandas runs over the cells of the group in row order
    with a compensated (Kahan) accumulation, in the arithmetic of the
    column: wrap-around integers for [int64], binary64 for [float64]. *)
Record NumDtype : Type := mkNumDtype {
  num : Type;
  num_zero : num;
  num_add : num -> num -> num;
  num_sub : num -> num -> num;
  num_isnan : num -> bool
}.

Definition wrap64 (z : Z) : Z := (z + 2 ^ 63) mod 2 ^ 64 - 2 ^ 63.

Definition int64 : NumDtype :=
  {| num := Z;
     num_zero := 0;
     num_add := fun a b => wrap64 (a + b);
     num_sub := fun a b => wrap64 (a - b);
     num_isnan := fun _ => false |}.

Definition float64 : NumDtype :=
  {| num := float;
     num_zero := 0%float;
     num_add := PrimFloat.add;
     num_sub := PrimFloat.sub;
     num_isnan := fun x => negb (PrimFloat.eqb x x) |}.

(** One step of the accumulation on the pair of the sum and its
    compensation. *)
Definition kahan_step (D : NumDtype) (st : num D * num D) (v : num D)
  : num D * num D :=
  let y := num_sub D v (snd st) in
  let t := num_add D (fst st) y in
  let c := num_sub D (num_sub D t (fst st)) y in
  (t, if num_isnan D c then num_zero D else c).

Definition accumulate (D : NumDtype) (st : num D * num D) (c : option (num D))
  : num D * num D :=
  match c with
  | Some v => kahan_step D st v
  | None => st
  end.

(** The sum of the cells of one group; missing cells are skipped. *)
Definition group_sum (D : NumDtype) (cells : list (option (num D))) : num D :=
  fst (fold_left (accumulate D) cells (num_zero D, num_zero D)).

(** A row of the filtered record set with its revenue cell as a value of
    the dtype of the revenue column; the integer revenue field of the row
    itself is not read. *)
Definition NumRow (D : NumDtype) : Type := (Row * option (num D))%type.

(** The sums of lines 76-85 on a revenue column of dtype [D]. *)
Definition groupby_sum_numeric (D : NumDtype) (dt : KeyDtype) (rs : list (NumRow D))
  : list (string * num D) :=
  map (fun k => (k, group_sum D (map snd (filter (fun r => key_is k (Cod_CRM (fst r))) rs))))
      (group_index dt (map (fun r => Cod_CRM (fst r)) rs)).

Definition all_pharmacy_revenue_numeric (D : NumDtype) (dt : KeyDtype)
  (rs : list (NumRow D)) : list (string * num D) :=
  groupby_sum_numeric D dt rs.

Definition rev_tier23_numeric (D : NumDtype) (dt : KeyDtype) (rs : list (NumRow D))
  : list (string * num D) :=
  groupby_sum_numeric D dt
    (filter (fun r => cell_isin ["Tier 2"; "Tier 3"] (tier (fst r))) rs).

Definition tier_counts_numeric (D : NumDtype) (dt dt_tier : KeyDtype)
  (rs : list (NumRow D)) : list TierCount :=
  groupby_nunique_default dt dt_tier (map fst rs).

(** The arithmetic of a dtype is exact on the values [valid] when it obeys
    these laws of integer addition there. *)
Record Exact (D : NumDtype) (valid : num D -> Prop) : Prop := mkExact {
  valid_zero : valid (num_zero D);
  valid_add : forall a b, valid a -> valid b -> valid (num_add D a b);
  add_swap : forall a b c, valid a -> valid b -> valid c ->
             num_add D (num_add D a b) c = num_add D (num_add D a c) b;
  sub_zero : forall a, valid a -> num_sub D a (num_zero D) = a;
  sub_cancel : forall a b, valid a -> valid b ->
               num_sub D (num_sub D (num_add D a b) a) b = num_zero D
}.

Definition in_int64 (z : Z) : Prop := - 2 ^ 63 <= z < 2 ^ 63.

Definition valid_cell {A : Type} (valid : A -> Prop) (c : option A) : Prop :=
  match c with
  | Some v => valid v
  | None => True
  end.

(** Whether some row of pharmacy [k] is labelled Tier 2 or Tier 3. *)
Definition has_tier23_row (rs : list Row) (k : string) : bool :=
  existsb (fun r => key_is k (Cod_CRM r) && in_tier23 r) rs.

(** *** Inputs *)

Definition categorical_ids : KeyDtype := Categorical ["A"; "B"].

Definition categorical_abc : KeyDtype := Categorical ["A"; "B"; "C"].

(** A table of returns whose [Canale] column has text and a missing cell. *)
Definition returns_with_blank_Canale : DataFrame :=
  {| columns := all_columns;
     rows := [ refund "A" 10;
               {| Channel := Some "Independent Pharmacies"; Product_Type := Some "OTC";
                  Causale := Some "Reso"; Canale := None;
                  Out_of_Scope_Filter := Some "In scope";
                  Cluster_Check := Some " 2.L ";
                  Cod_CRM := Some "B"; tier := Some "Tier 2"; Brand := Some "x";
                  Net_Price_1_Revenue := Some 20 |} ] |}.

(** A record set in which pharmacy "B" has no row. *)
Definition returns_and_sales : DataFrame :=
  {| columns := all_columns;
     rows := [ sale "A" (Some "Tier 2") "y" 500; sale "C" (Some "Tier 3") "z" 2500 ] |}.

(** The rows of [example_filtered] with one tier label replaced by the
    name of the identifier column. *)
Definition example_label_Cod_CRM : DataFrame :=
  {| columns := all_columns;
     rows := [ sale "B" (Some "Tier 2") "x" 1500;
               sale "A" None "y" 500;
               sale "C" (Some "Tier 3") "z" 2500;
               sale "B" (Some "Tier 2") "w" 10;
               sale "B" (Some "Cod CRM") "w" 10 ] |}.

(** Three sales of one pharmacy with a [float64] revenue, in two orders. *)
Definition float_rows : list (NumRow float64) :=
  [ (sale "A" (Some "Tier 2") "x" 0, Some 1e16%float);
    (sale "A" (Some "Tier 2") "y" 0, Some 1%float);
    (sale "A" (Some "Tier 1") "x" 0, Some (-1e16)%float) ].

Definition float_rows_reordered : list (NumRow float64) :=
  [ (sale "A" (Some "Tier 2") "x" 0, Some 1e16%float);
    (sale "A" (Some "Tier 1") "x" 0, Some (-1e16)%float);
    (sale "A" (Some "Tier 2") "y" 0, Some 1%float) ].

(** Sales with an [int64] revenue whose sum wraps around, and the same
    from the last to the first. *)
Definition int64_rows : list (NumRow int64) :=
  [ (sale "A" (Some "Tier 2") "x" 0, Some (2 ^ 63 - 1));
    (sale "B" (Some "Tier 3") "y" 0, Some 5);
    (sale "A" (Some "Tier 2") "y" 0, Some 1);
    (sale "A" None "z" 0, None);
    (sale "A" (Some "Tier 1") "x" 0, Some 7) ].

Definition int64_rows_reordered : list (NumRow int64) :=
  [ (sale "A" (Some "Tier 1") "x" 0, Some 7);
    (sale "A" None "z" 0, None);
    (sale "A" (Some "Tier 2") "y" 0, Some 1);
    (sale "B" (Some "Tier 3") "y" 0, Some 5);
    (sale "A" (Some "Tier 2") "x" 0, Some (2 ^ 63 - 1)) ].

(** * Properties *)

(** ** Masks and boolean indexing *)

Lemma select_rows_map (p : Row -> bool) (rs : list Row) :
  select_rows rs (map p rs) = filter p rs.
Proof.
  induction rs as [|r rs IH]; simpl; [reflexivity|].
  rewrite IH. reflexivity.
Qed.

Lemma mask_and_map {A : Type} (p q : A -> bool) (l : list A) :
  mask_and (map p l) (map q l) = map (fun x => p x && q x) l.
Proof.
  induction l as [|x l IH]; simpl; [reflexivity|].
  now rewrite IH.
Qed.

Lemma filter_filter {A : Type} (p q : A -> bool) (l : list A) :
  filter p (filter q l) = filter (fun x => q x && p x) l.
Proof.
  induction l as [|x l IH]; simpl; [reflexivity|].
  destruct (q x); simpl; [destruct (p x)|]; now rewrite IH.
Qed.

Lemma filter_all {A : Type} (p : A -> bool) (l : list A) :
  (forall x, p x = true) -> filter p l = l.
Proof.
  intros Hp. induction l as [|x l IH]; simpl; [reflexivity|].
  now rewrite Hp, IH.
Qed.

Lemma has_column_mk (cols : list string) (rs : list Row) (c : string) :
  has_column {| columns := cols; rows := rs |} c = existsb (String.eqb c) cols.
Proof. reflexivity. Qed.

Lemma has_column_boolean_index (df : DataFrame) (mask : list bool) (c : string) :
  has_column (boolean_index df mask) c = has_column df c.
Proof. reflexivity. Qed.

(** [df[df[c].isin(values)]] keeps the rows whose cell is in the list. *)
Lemma boolean_index_isin (df : DataFrame) (field : Row -> option string)
  (values : list string) :
  boolean_index df (isin (map field (rows df)) values)
  = {| columns := columns df;
       rows := filter (fun r => cell_isin values (field r)) (rows df) |}.
Proof.
  unfold boolean_index, isin. rewrite map_map, select_rows_map. reflexivity.
Qed.

(** One optional filter: skipped on an empty list, a row filter otherwise. *)
Lemma apply_filter_ok (df : DataFrame) (c : string) (field : Row -> option string)
  (values : list string) :
  (truthy values = true -> has_column df c = true) ->
  apply_filter df c field values
  = Ok {| columns := columns df;
          rows := filter (fun r => passes values (field r)) (rows df) |}.
Proof.
  intros Hc. unfold apply_filter, passes.
  destruct (truthy values) eqn:Ht; simpl.
  - unfold getitem. rewrite (Hc eq_refl). simpl.
    now rewrite boolean_index_isin.
  - rewrite filter_all by reflexivity. now destruct df.
Qed.

Lemma supplied_truthy (df : DataFrame) (c : string) (picked : list string) :
  truthy (supplied df c picked) = true -> has_column df c = true.
Proof.
  unfold supplied. destruct (has_column df c); [reflexivity|discriminate].
Qed.

(** The fixed eligibility rule is a row filter when its four columns are
    there. *)
Lemma merged_pharmacies_ok (df : DataFrame) :
  has_columns df fixed_rule_columns = true ->
  merged_pharmacies df
  = Ok {| columns := columns df; rows := filter eligible (rows df) |}.
Proof.
  unfold has_columns, fixed_rule_columns. simpl.
  rewrite !andb_true_iff. intros (H1 & H2 & H3 & H4 & _).
  unfold merged_pharmacies, getitem. rewrite H1, H2, H3, H4. simpl.
  unfold series_eq, isin, boolean_index.
  rewrite !map_map, !mask_and_map, select_rows_map.
  reflexivity.
Qed.

(** The first absent column of the fixed rule is the [KeyError] raised. *)
Lemma merged_pharmacies_raises (df : DataFrame) :
  has_columns df fixed_rule_columns = false ->
  exists c, In c fixed_rule_columns /\ merged_pharmacies df = Raise (KeyError c).
Proof.
  unfold has_columns, fixed_rule_columns, merged_pharmacies, getitem. simpl.
  destruct (has_column df col_Channel) eqn:H1; simpl;
    [|intros _; exists col_Channel; simpl; auto].
  destruct (has_column df col_Causale) eqn:H2; simpl;
    [|intros _; exists col_Causale; simpl; auto].
  destruct (has_column df col_Out_of_Scope_Filter) eqn:H3; simpl;
    [|intros _; exists col_Out_of_Scope_Filter; simpl; auto].
  destruct (has_column df col_Cluster_Check) eqn:H4; simpl;
    [discriminate|intros _; exists col_Cluster_Check; simpl; auto 6].
Qed.

(** The optional filters of [app.py], when the three names it reads are
    bound. *)
Lemma df_filtered_ok (df : DataFrame) (sel : Selections) :
  has_column df col_Causale = true ->
  has_column df col_Canale = true ->
  has_column df col_Out_of_Scope_Filter = true ->
  df_filtered df sel
  = Ok {| columns := columns df;
          rows := filter (passes_inclusion_lists df sel) (rows df) |}.
Proof.
  intros H3 H4 H5. unfold df_filtered, multiselect_if_present.
  rewrite H3, H4, H5. simpl.
  fold (supplied df col_Channel (pick_Channel sel)).
  fold (supplied df col_Product_Type (pick_Product_Type sel)).
  rewrite apply_filter_ok by apply supplied_truthy. simpl.
  rewrite apply_filter_ok
    by (rewrite has_column_mk; apply (supplied_truthy df)). simpl.
  rewrite apply_filter_ok by (intros _; rewrite has_column_mk; exact H3). simpl.
  rewrite apply_filter_ok by (intros _; rewrite has_column_mk; exact H4). simpl.
  rewrite apply_filter_ok by (intros _; rewrite has_column_mk; exact H5). simpl.
  rewrite !filter_filter.
  do 2 f_equal. apply filter_ext. intros r.
  unfold passes_inclusion_lists, supplied. rewrite H3, H4, H5.
  now rewrite !andb_assoc.
Qed.

(** A name left unbound by an absent column aborts the optional filters. *)
Lemma df_filtered_raises (df : DataFrame) (sel : Selections) :
  has_column df col_Causale && has_column df col_Canale
  && has_column df col_Out_of_Scope_Filter = false ->
  exists name, df_filtered df sel = Raise (NameError name).
Proof.
  intros H. unfold df_filtered, multiselect_if_present.
  fold (supplied df col_Channel (pick_Channel sel)).
  fold (supplied df col_Product_Type (pick_Product_Type sel)).
  rewrite apply_filter_ok by apply supplied_truthy. simpl.
  rewrite apply_filter_ok
    by (rewrite has_column_mk; apply (supplied_truthy df)). simpl.
  destruct (has_column df col_Causale) eqn:H3; simpl; [|eauto].
  rewrite apply_filter_ok by (intros _; rewrite has_column_mk; exact H3). simpl.
  destruct (has_column df col_Canale) eqn:H4; simpl; [|eauto].
  rewrite apply_filter_ok by (intros _; rewrite has_column_mk; exact H4). simpl.
  destruct (has_column df col_Out_of_Scope_Filter) eqn:H5; simpl; [|eauto].
  discriminate.
Qed.

(** The record filter of [app.py] returns a frame exactly when the table
    has the five columns it reads, and that frame is a row filter of the
    table. *)
Lemma record_filter_ok (df : DataFrame) (sel : Selections) :
  has_columns df filter_columns = true ->
  record_filter df sel
  = Ok {| columns := columns df;
          rows := filter (fun r => passes_inclusion_lists df sel r && eligible r)
                         (rows df) |}.
Proof.
  unfold has_columns, filter_columns. simpl.
  rewrite !andb_true_iff. intros (H1 & H2 & H3 & H4 & H5 & _).
  unfold record_filter. rewrite df_filtered_ok by assumption. simpl.
  rewrite merged_pharmacies_ok.
  - simpl. now rewrite filter_filter.
  - unfold has_columns, fixed_rule_columns. simpl.
    rewrite !has_column_mk.
    unfold has_column in H1, H2, H4, H5. now rewrite H1, H2, H4, H5.
Qed.

Lemma record_filter_raises (df : DataFrame) (sel : Selections) :
  has_columns df filter_columns = false ->
  raises (record_filter df sel).
Proof.
  unfold has_columns, filter_columns. simpl. intros H.
  unfold record_filter.
  destruct (has_column df col_Causale && has_column df col_Canale
            && has_column df col_Out_of_Scope_Filter) eqn:Hn.
  - apply andb_true_iff in Hn as [Hn H5]. apply andb_true_iff in Hn as [H3 H4].
    rewrite df_filtered_ok by assumption. simpl.
    destruct (merged_pharmacies_raises
                {| columns := columns df;
                   rows := filter (passes_inclusion_lists df sel) (rows df) |})
      as (c & _ & Hc).
    + unfold has_columns, fixed_rule_columns. simpl. rewrite !has_column_mk.
      unfold has_column in H, H3, H4, H5. rewrite H3, H4, H5 in H.
      rewrite H3, H5. rewrite !andb_true_r in *. simpl in *.
      destruct (existsb (String.eqb col_Channel) (columns df)); simpl in *; auto.
    + exists (KeyError c). exact Hc.
  - destruct (df_filtered_raises df sel Hn) as (name & Hname).
    rewrite Hname. simpl. now exists (NameError name).
Qed.

(** ** Record Filter: the claims *)

(** C4.  Whenever the record filter of [app.py] yields a filtered record
    set, a row of the table is in it if and only if it passes every
    supplied inclusion list (an empty list is no constraint) and satisfies
    the fixed eligibility rule; everything downstream is computed from
    that set alone. *)
Theorem C4_filtered_record_set (df : DataFrame) (sel : Selections) (m : DataFrame) :
  record_filter df sel = Ok m ->
  (forall r, In r (rows m) <->
             In r (rows df) /\ passes_inclusion_lists df sel r = true
             /\ eligible r = true)
  /\ (forall th, app_run df sel th = engine th m).
Proof.
  intros Hm. split.
  - destruct (has_columns df filter_columns) eqn:Hc.
    + rewrite record_filter_ok in Hm by exact Hc.
      injection Hm as <-. simpl. intros r.
      rewrite filter_In, andb_true_iff. tauto.
    + destruct (record_filter_raises df sel Hc) as (e & He).
      rewrite He in Hm. discriminate.
  - intros th. unfold app_run. now rewrite Hm.
Qed.

Lemma C4_filtered_record_set_witness :
  record_filter example_table example_picks = Ok example_filtered
  /\ (In (sale "A" None "y" 500) (rows example_filtered) <->
      In (sale "A" None "y" 500) (rows example_table)
      /\ passes_inclusion_lists example_table example_picks (sale "A" None "y" 500) = true
      /\ eligible (sale "A" None "y" 500) = true)
  /\ (In (refund "C" 70) (rows example_filtered) <->
      In (refund "C" 70) (rows example_table)
      /\ passes_inclusion_lists example_table example_picks (refund "C" 70) = true
      /\ eligible (refund "C" 70) = true).
Proof.
  assert (H : record_filter example_table example_picks = Ok example_filtered)
    by reflexivity.
  split; [exact H|].
  destruct (C4_filtered_record_set example_table example_picks example_filtered H)
    as [Hin _].
  split; apply Hin.
Defined.

(** The filtered record set exists exactly when the five columns read by
    the record filter are there. *)
Lemma record_filter_succeeds_iff (df : DataFrame) (sel : Selections) :
  succeeds (record_filter df sel) <-> has_columns df filter_columns = true.
Proof.
  split.
  - intros (m & Hm). destruct (has_columns df filter_columns) eqn:Hc; [reflexivity|].
    destruct (record_filter_raises df sel Hc) as (e & He). congruence.
  - intros Hc. rewrite record_filter_ok by exact Hc. eexists. reflexivity.
Qed.

(** An absent [Product_Type] column is no constraint. *)
Lemma absent_Product_Type_is_skipped (df : DataFrame) (sel : Selections) (r : Row) :
  has_column df col_Product_Type = false ->
  passes (supplied df col_Product_Type (pick_Product_Type sel)) (Product_Type r) = true.
Proof. intros H. unfold supplied. now rewrite H. Qed.

(** An absent [Canale] column, which the fixed rule does not read, aborts
    [app.py] on the unbound name [canale]. *)
Lemma absent_Canale_raises (df : DataFrame) (sel : Selections) (th : ThresholdConfig) :
  has_column df col_Causale = true ->
  has_column df col_Canale = false ->
  app_run df sel th = Raise (NameError "canale").
Proof.
  intros H3 H4. unfold app_run, record_filter, df_filtered, multiselect_if_present.
  fold (supplied df col_Channel (pick_Channel sel)).
  fold (supplied df col_Product_Type (pick_Product_Type sel)).
  rewrite apply_filter_ok by apply supplied_truthy. simpl.
  rewrite apply_filter_ok
    by (rewrite has_column_mk; apply (supplied_truthy df)). simpl.
  rewrite H3. simpl.
  rewrite apply_filter_ok by (intros _; rewrite has_column_mk; exact H3). simpl.
  rewrite H4. reflexivity.
Qed.

(** An absent column of the fixed rule aborts both scripts: no output
    table is produced. *)
Lemma absent_fixed_rule_column_raises (df : DataFrame) (sel : Selections)
  (th : ThresholdConfig) :
  has_columns df fixed_rule_columns = false ->
  raises (app_run df sel th) /\ raises (simulation_run df th).
Proof.
  intros H. split.
  - destruct (record_filter_raises df sel) as (e & He).
    + unfold has_columns, fixed_rule_columns, filter_columns in *. simpl in *.
      destruct (has_column df col_Channel), (has_column df col_Causale),
        (has_column df col_Canale), (has_column df col_Out_of_Scope_Filter),
        (has_column df col_Cluster_Check); simpl in *; congruence.
    + exists e. unfold app_run. now rewrite He.
  - destruct (merged_pharmacies_raises df H) as (c & _ & Hc).
    exists (KeyError c). unfold simulation_run. now rewrite Hc.
Qed.

(** C3.  The table that lacks only the optional [Canale] column: [app.py]
    does not skip the filter, it aborts on the unbound name [canale],
    while the sibling script, which has no optional filters, classifies
    the same table. *)
Theorem C3_absent_Canale_aborts :
  has_columns table_without_Canale fixed_rule_columns = true
  /\ has_column table_without_Canale col_Canale = false
  /\ app_run table_without_Canale no_picks default_thresholds
     = Raise (NameError "canale")
  /\ succeeds (simulation_run table_without_Canale default_thresholds)
  /\ succeeds (app_run table_without_Product_Type no_picks default_thresholds).
Proof.
  split; [reflexivity|]. split; [reflexivity|]. split; [reflexivity|].
  split; eexists; vm_compute; reflexivity.
Qed.

(** ** Classifier *)

(** The four passes over the frame amount to one decision per pharmacy. *)
Lemma assign_categories_map (th : ThresholdConfig) (apr : list (string * Z)) :
  assign_categories th apr
  = map (fun kv => {| pr_Cod_CRM := fst kv;
                      total_net1rev_imponibile := snd kv;
                      partnership_category := last_matching_rule th (snd kv) |}) apr.
Proof.
  unfold assign_categories, loc_assign, set_category_column.
  rewrite !map_map. apply map_ext. intros [k v]. simpl.
  unfold last_matching_rule. simpl.
  destruct (v >? silver_min th); simpl;
    destruct ((v >=? gold_min th) && (v <? gold_max th)); simpl;
    destruct (v >=? platinum_min th); reflexivity.
Qed.

Lemma assign_categories_In (th : ThresholdConfig) (apr : list (string * Z))
  (r : PharmacyRevenue) :
  In r (assign_categories th apr) ->
  In (pr_Cod_CRM r, total_net1rev_imponibile r) apr
  /\ partnership_category r = last_matching_rule th (total_net1rev_imponibile r).
Proof.
  rewrite assign_categories_map, in_map_iff.
  intros ([k v] & <- & Hin). simpl. auto.
Qed.

(** The decision, by cases on the three tests. *)
Lemma last_matching_rule_cases (th : ThresholdConfig) (rev : Z) :
  last_matching_rule th rev
  = if rev >=? platinum_min th then Platinum
    else if (rev >=? gold_min th) && (rev <? gold_max th) then Gold
    else if rev >? silver_min th then Silver
    else Unassigned.
Proof.
  unfold last_matching_rule. simpl.
  destruct (rev >=? platinum_min th); [reflexivity|].
  destruct ((rev >=? gold_min th) && (rev <? gold_max th)); [reflexivity|].
  destruct (rev >? silver_min th); reflexivity.
Qed.

Ltac classify :=
  rewrite last_matching_rule_cases;
  repeat match goal with
    | |- context [?a >=? ?b] => destruct (Z.geb_spec a b); simpl
    | |- context [?a >? ?b] => destruct (Z.gtb_spec a b); simpl
    | |- context [?a <? ?b] => destruct (Z.ltb_spec a b); simpl
    end.

(** C1.  For every frame of pharmacy totals and every threshold
    configuration, the passes Unassigned, Silver, Gold, Platinum leave on
    each pharmacy the category of the last rule its total revenue matches;
    with thresholds 1000, 1000, 2000, 2000 the totals 1500, 2500 and 500
    are Gold, Platinum and Unassigned. *)
Theorem C1_last_matching_rule_wins (th : ThresholdConfig) (apr : list (string * Z)) :
  assign_categories th apr
  = map (fun kv => {| pr_Cod_CRM := fst kv;
                      total_net1rev_imponibile := snd kv;
                      partnership_category := last_matching_rule th (snd kv) |}) apr
  /\ (forall rev,
        last_matching_rule th rev
        = fold_left (fun (c : Category) (rule : (Z -> bool) * Category) =>
                       if fst rule rev then snd rule else c)
                    (rules th) Unassigned)
  /\ map partnership_category (assign_categories default_thresholds example_revenue)
     = [Gold; Platinum; Unassigned].
Proof.
  split; [apply assign_categories_map|]. split; [|reflexivity].
  intros rev. rewrite last_matching_rule_cases. simpl.
  destruct (rev >? silver_min th); simpl;
    destruct ((rev >=? gold_min th) && (rev <? gold_max th)); simpl;
    destruct (rev >=? platinum_min th); reflexivity.
Qed.

(** C2, as stated, fails: a total equal to [gold_min] is Platinum, not
    Gold, when the Platinum range starts at [gold_min]. *)
Lemma C2_counterexample :
  assign_categories overlapping_thresholds [("A", gold_min overlapping_thresholds)]
  = [mkPharmacyRevenue "A" 2000 Platinum]
  /\ ~ (forall th apr r,
          In r (assign_categories th apr) ->
          total_net1rev_imponibile r = gold_min th ->
          partnership_category r = Gold).
Proof.
  split; [reflexivity|].
  intros H.
  specialize (H overlapping_thresholds [("A", 2000)]
                (mkPharmacyRevenue "A" 2000 Platinum)).
  simpl in H. discriminate H; auto.
Qed.

(** C2, amended.  A pharmacy whose total equals [gold_min] is Gold exactly
    when [gold_min < gold_max] and [gold_min < platinum_min]; one whose
    total equals [gold_max] is never Gold; one whose total equals
    [silver_min] is never Silver. *)
Theorem C2_boundaries (th : ThresholdConfig) (apr : list (string * Z))
  (r : PharmacyRevenue) :
  In r (assign_categories th apr) ->
  (total_net1rev_imponibile r = gold_min th ->
   (partnership_category r = Gold <->
    gold_min th < gold_max th /\ gold_min th < platinum_min th))
  /\ (total_net1rev_imponibile r = gold_max th -> partnership_category r <> Gold)
  /\ (total_net1rev_imponibile r = silver_min th -> partnership_category r <> Silver).
Proof.
  intros Hin. apply assign_categories_In in Hin as [_ ->].
  generalize (total_net1rev_imponibile r). intros v.
  split; [|split].
  - intros Hv. split.
    + classify; intros; try discriminate; lia.
    + intros [H1 H2]. classify; try reflexivity; lia.
  - intros Hv. classify; try discriminate; lia.
  - intros Hv. classify; try discriminate; lia.
Qed.

Lemma C2_boundaries_witness :
  In (mkPharmacyRevenue "A" 1000 Gold)
     (assign_categories default_thresholds [("A", 1000); ("B", 2000)])
  /\ (total_net1rev_imponibile (mkPharmacyRevenue "A" 1000 Gold)
      = gold_min default_thresholds ->
      (partnership_category (mkPharmacyRevenue "A" 1000 Gold) = Gold <->
       gold_min default_thresholds < gold_max default_thresholds
       /\ gold_min default_thresholds < platinum_min default_thresholds)).
Proof.
  assert (H : In (mkPharmacyRevenue "A" 1000 Gold)
                 (assign_categories default_thresholds [("A", 1000); ("B", 2000)]))
    by (simpl; auto).
  split; [exact H|].
  exact (proj1 (C2_boundaries default_thresholds [("A", 1000); ("B", 2000)] _ H)).
Defined.

(** Without the Gold pass. *)
Lemma assign_categories_without_gold_map (th : ThresholdConfig)
  (apr : list (string * Z)) :
  assign_categories_without_gold th apr
  = map (fun kv => {| pr_Cod_CRM := fst kv;
                      total_net1rev_imponibile := snd kv;
                      partnership_category :=
                        if snd kv >=? platinum_min th then Platinum
                        else if snd kv >? silver_min th then Silver
                        else Unassigned |}) apr.
Proof.
  unfold assign_categories_without_gold, loc_assign, set_category_column.
  rewrite !map_map. apply map_ext. intros [k v]. simpl.
  destruct (v >? silver_min th); simpl; destruct (v >=? platinum_min th); reflexivity.
Qed.

(** Thresholds are never inspected for an error: the engine succeeds for
    every configuration as soon as the aggregator does. *)
Lemma engine_succeeds (th : ThresholdConfig) (m : DataFrame) :
  succeeds (aggregator m) -> succeeds (engine th m).
Proof.
  intros (agg & Hagg). unfold engine. rewrite Hagg. eexists. reflexivity.
Qed.

(** C5.  With [gold_max < gold_min] the classification runs as for any
    other thresholds, no pharmacy is Gold, and every pharmacy has the
    category the Silver and Platinum passes alone give it. *)
Theorem C5_inverted_gold_range (th : ThresholdConfig) :
  gold_max th < gold_min th ->
  (forall m, succeeds (aggregator m) -> succeeds (engine th m))
  /\ (forall apr r, In r (assign_categories th apr) -> partnership_category r <> Gold)
  /\ (forall apr, assign_categories th apr = assign_categories_without_gold th apr).
Proof.
  intros Hinv. split; [intros m; apply engine_succeeds|]. split.
  - intros apr r Hin. apply assign_categories_In in Hin as [_ ->].
    classify; try discriminate; lia.
  - intros apr. rewrite assign_categories_map, assign_categories_without_gold_map.
    apply map_ext. intros [k v]. simpl. f_equal.
    classify; try reflexivity; lia.
Qed.

Lemma C5_inverted_gold_range_witness :
  gold_max inverted_thresholds < gold_min inverted_thresholds
  /\ assign_categories inverted_thresholds example_revenue
     = assign_categories_without_gold inverted_thresholds example_revenue.
Proof.
  assert (H : gold_max inverted_thresholds < gold_min inverted_thresholds)
    by (simpl; lia).
  split; [exact H|].
  exact (proj2 (proj2 (C5_inverted_gold_range inverted_thresholds H)) example_revenue).
Defined.

(** ** Table Builder *)

Lemma summary_by_category_rows (t : list PharmacyRevenue) :
  summary_by_category t
  = [ summary_row_of Silver t; summary_row_of Gold t;
      summary_row_of Platinum t; summary_row_of Unassigned t ].
Proof. reflexivity. Qed.

Lemma filter_none {A : Type} (p : A -> bool) (l : list A) :
  (forall x, In x l -> p x = false) -> filter p l = [].
Proof.
  induction l as [|x l IH]; simpl; intros H; [reflexivity|].
  rewrite (H x) by auto. apply IH. auto.
Qed.

Lemma category_eqb_eq (a b : Category) : category_eqb a b = true <-> a = b.
Proof. destruct a, b; simpl; split; congruence. Qed.

(** The three assigned categories partition the pharmacies that are not
    Unassigned. *)
Lemma assigned_count (t : list PharmacyRevenue) :
  category_count Silver t + category_count Gold t + category_count Platinum t
  = Z.of_nat (List.length (filter (fun r => negb (in_category Unassigned r)) t)).
Proof.
  unfold category_count, in_category.
  induction t as [|r t IH]; [reflexivity|].
  cbn [filter]. destruct (partnership_category r);
    cbn [category_eqb negb List.length]; rewrite ?Nat2Z.inj_succ; lia.
Qed.

Lemma assigned_revenue (t : list PharmacyRevenue) :
  category_revenue Silver t + category_revenue Gold t + category_revenue Platinum t
  = sum_Z (map total_net1rev_imponibile
             (filter (fun r => negb (in_category Unassigned r)) t)).
Proof.
  unfold category_revenue, in_category, sum_Z.
  induction t as [|r t IH]; [reflexivity|].
  cbn [filter]. destruct (partnership_category r);
    cbn [category_eqb negb map fold_right]; lia.
Qed.

(** C8.  For every classified frame the summary table is the four category
    rows in display order followed by the grand-total row, whose count and
    revenue are the sums over the Silver, Gold and Platinum rows, that is
    the number and the revenue of the pharmacies that are not Unassigned;
    the Unassigned row does not enter it, and when every pharmacy is
    Unassigned (or there is none) the grand total is 0 and 0. *)
Theorem C8_grand_total_row (t : list PharmacyRevenue) :
  summary_table t
  = [ summary_row_of Silver t; summary_row_of Gold t;
      summary_row_of Platinum t; summary_row_of Unassigned t;
      {| sr_partnership_category := total_label;
         num_pharmacies := category_count Silver t + category_count Gold t
                           + category_count Platinum t;
         total_revenue := category_revenue Silver t + category_revenue Gold t
                          + category_revenue Platinum t |} ]
  /\ category_count Silver t + category_count Gold t + category_count Platinum t
     = Z.of_nat (List.length (filter (fun r => negb (in_category Unassigned r)) t))
  /\ category_revenue Silver t + category_revenue Gold t + category_revenue Platinum t
     = sum_Z (map total_net1rev_imponibile
                (filter (fun r => negb (in_category Unassigned r)) t))
  /\ ((forall r, In r t -> partnership_category r = Unassigned) ->
      last (summary_table t) (mkSummaryRow EmptyString 1 1) = mkSummaryRow total_label 0 0).
Proof.
  assert (Hs : summary_table t
               = [ summary_row_of Silver t; summary_row_of Gold t;
                   summary_row_of Platinum t; summary_row_of Unassigned t;
                   {| sr_partnership_category := total_label;
                      num_pharmacies := category_count Silver t + category_count Gold t
                                        + category_count Platinum t;
                      total_revenue := category_revenue Silver t + category_revenue Gold t
                                       + category_revenue Platinum t |} ]).
  { unfold summary_table. rewrite summary_by_category_rows.
    unfold no_unassigned, total_row. simpl. do 5 f_equal.
    f_equal; lia. }
  split; [exact Hs|]. split; [apply assigned_count|]. split; [apply assigned_revenue|].
  intros Hall. rewrite Hs. simpl.
  assert (Hnone : forall c, c <> Unassigned -> filter (in_category c) t = []).
  { intros c Hc. apply filter_none. intros r Hr. unfold in_category.
    rewrite (Hall r Hr). destruct c; try reflexivity. congruence. }
  unfold category_count, category_revenue.
  rewrite !Hnone by discriminate. reflexivity.
Qed.

Lemma C8_grand_total_row_witness :
  category_count Unassigned example_classified = 1
  /\ last (summary_table example_classified) (mkSummaryRow EmptyString 1 1)
     = mkSummaryRow total_label 3 5220
  /\ last (summary_table [mkPharmacyRevenue "A" 500 Unassigned]) (mkSummaryRow EmptyString 1 1)
     = mkSummaryRow total_label 0 0.
Proof.
  split; [reflexivity|]. split.
  - rewrite (proj1 (C8_grand_total_row example_classified)). reflexivity.
  - apply (proj2 (proj2 (proj2 (C8_grand_total_row
                                  [mkPharmacyRevenue "A" 500 Unassigned])))).
    intros r [<-|[]]. reflexivity.
Defined.

(** ** The engine *)


(** ** Group keys: the order on strings *)

Lemma compare_refl (s : string) : String.compare s s = Eq.
Proof. now apply String_as_OT.cmp_eq. Qed.

Lemma compare_lt_trans (a b c : string) :
  String.compare a b = Lt -> String.compare b c = Lt -> String.compare a c = Lt.
Proof.
  intros H1 H2. apply String_as_OT.cmp_lt.
  apply String_as_OT.lt_trans with b; now apply String_as_OT.cmp_lt.
Qed.

Lemma compare_gt_lt (a b : string) :
  String.compare a b = Gt <-> String.compare b a = Lt.
Proof.
  rewrite (String.compare_antisym b a).
  destruct (String.compare a b); simpl; split; congruence.
Qed.

Lemma compare_lt_irrefl (a : string) : String.compare a a <> Lt.
Proof. rewrite compare_refl. discriminate. Qed.

(** Decides a goal about [insert_key] once every comparison in sight has
    been named: saturates the hypotheses with the order facts. *)
Ltac order_facts :=
  repeat match goal with
    | H : String.compare ?a ?b = Eq |- _ =>
        apply String.compare_eq_iff in H; subst
    | H : String.compare ?a ?b = Gt |- _ => apply compare_gt_lt in H
    | H : String.compare ?a ?a = Lt |- _ => now apply compare_lt_irrefl in H
    end.

Ltac order_close :=
  order_facts;
  try match goal with
    | H1 : String.compare ?a ?b = Lt, H2 : String.compare ?b ?a = Lt |- _ =>
        exfalso; apply (compare_lt_irrefl a); exact (compare_lt_trans a b a H1 H2)
    | H1 : String.compare ?a ?b = Lt, H2 : String.compare ?b ?c = Lt,
      H3 : String.compare ?c ?a = Lt |- _ =>
        exfalso; apply (compare_lt_irrefl a);
        exact (compare_lt_trans a c a (compare_lt_trans a b c H1 H2) H3)
    end.

Lemma insert_key_comm (a b : string) (l : list string) :
  insert_key a (insert_key b l) = insert_key b (insert_key a l).
Proof.
  induction l as [|h t IH]; simpl.
  - destruct (String.compare a b) eqn:Hab.
    + order_facts. now rewrite compare_refl.
    + apply compare_gt_lt in Hab as Hba. now rewrite Hba.
    + apply compare_gt_lt in Hab as Hba. now rewrite Hba.
  - destruct (String.compare b h) eqn:Hbh, (String.compare a h) eqn:Hah; simpl;
      rewrite ?Hbh, ?Hah; try reflexivity;
      destruct (String.compare a b) eqn:Hab;
      try (pose proof Hab as Hba; apply compare_gt_lt in Hba; rewrite ?Hba);
      try (pose proof (proj2 (compare_gt_lt b a) Hab) as Hba'; rewrite ?Hba');
      simpl; rewrite ?Hbh, ?Hah, ?IH; try reflexivity; order_close;
      now rewrite compare_refl.
Qed.

(** ** Aggregator: independence of the row order *)

Lemma sorted_unique_perm (l l' : list string) :
  Permutation l l' -> sorted_unique l = sorted_unique l'.
Proof.
  unfold sorted_unique.
  induction 1 as [|x l l' _ IH|x y l|l l' l'' _ IH1 _ IH2]; simpl.
  - reflexivity.
  - now rewrite IH.
  - apply insert_key_comm.
  - congruence.
Qed.

Lemma dropna_perm {A : Type} (l l' : list (option A)) :
  Permutation l l' -> Permutation (dropna l) (dropna l').
Proof.
  induction 1 as [|x l l' _ IH|x y l|l l' l'' _ IH1 _ IH2]; simpl.
  - constructor.
  - destruct x; [now constructor|exact IH].
  - destruct x, y; try reflexivity. constructor.
  - now transitivity (dropna l').
Qed.

Lemma filter_perm {A : Type} (p : A -> bool) (l l' : list A) :
  Permutation l l' -> Permutation (filter p l) (filter p l').
Proof.
  induction 1 as [|x l l' _ IH|x y l|l l' l'' _ IH1 _ IH2]; simpl.
  - constructor.
  - destruct (p x); [now constructor|exact IH].
  - destruct (p x), (p y); try reflexivity. constructor.
  - now transitivity (filter p l').
Qed.

Lemma sum_skipna_perm (s s' : list (option Z)) :
  Permutation s s' -> sum_skipna s = sum_skipna s'.
Proof.
  unfold sum_skipna.
  induction 1 as [|x l l' _ IH|x y l|l l' l'' _ IH1 _ IH2]; simpl.
  - reflexivity.
  - now rewrite IH.
  - destruct x, y; lia.
  - congruence.
Qed.

Lemma nunique_perm (s s' : list (option string)) :
  Permutation s s' -> nunique s = nunique s'.
Proof.
  intros H. unfold nunique. f_equal. apply Permutation_length.
  apply NoDup_Permutation; try apply NoDup_nodup.
  intros x. rewrite !nodup_In.
  apply dropna_perm in H.
  split; apply Permutation_in; [exact H|symmetry; exact H].
Qed.

Lemma group_rows_perm (key : Row -> option string) (k : string) (rs rs' : list Row) :
  Permutation rs rs' -> Permutation (group_rows key k rs) (group_rows key k rs').
Proof. apply filter_perm. Qed.

Lemma group_keys_perm (key : Row -> option string) (rs rs' : list Row) :
  Permutation rs rs' ->
  sorted_unique (dropna (map key rs)) = sorted_unique (dropna (map key rs')).
Proof.
  intros H. apply sorted_unique_perm, dropna_perm, Permutation_map, H.
Qed.

Lemma flat_map_ext' {A B : Type} (f g : A -> list B) (l : list A) :
  (forall x, f x = g x) -> flat_map f l = flat_map g l.
Proof.
  intros H. induction l as [|x l IH]; simpl; [reflexivity|].
  now rewrite H, IH.
Qed.

Lemma groupby_nunique_perm (rs rs' : list Row) :
  Permutation rs rs' -> groupby_nunique rs = groupby_nunique rs'.
Proof.
  intros H. unfold groupby_nunique.
  pose proof (filter_perm has_both_keys rs rs' H) as Hk.
  rewrite (group_keys_perm Cod_CRM _ _ Hk).
  apply flat_map_ext'. intros k.
  pose proof (group_rows_perm Cod_CRM k _ _ Hk) as Hg.
  rewrite (group_keys_perm tier _ _ Hg).
  apply map_ext. intros t. f_equal.
  apply nunique_perm, Permutation_map, group_rows_perm, Hg.
Qed.

(** The aggregator reads four columns and is otherwise a function of the
    rows. *)
Lemma aggregator_unfold (m : DataFrame) :
  aggregator m
  = if has_columns m aggregator_columns then
      let apr := groupby_sum (rows m) in
      let r23 := groupby_sum (filter (fun r => cell_isin ["Tier 2"; "Tier 3"] (tier r))
                                     (rows m)) in
      let tc := groupby_nunique (rows m) in
      Ok {| agg_all_pharmacy_revenue := apr;
            agg_rev_tier23 := r23;
            agg_tier_counts := tc;
            agg_threshold_data :=
              threshold_data apr (tier_counts_pivot_use tc) r23 |}
    else
      Raise (KeyError (if has_column m col_Cod_CRM then
                         if has_column m col_Net_Price_1_Revenue then
                           if has_column m col_tier then col_Brand else col_tier
                         else col_Net_Price_1_Revenue
                       else col_Cod_CRM)).
Proof.
  unfold aggregator, all_pharmacy_revenue, rev_tier23, tier_counts, getitem.
  unfold has_columns, aggregator_columns. cbn [forallb].
  destruct (has_column m col_Cod_CRM) eqn:H1; [|reflexivity].
  destruct (has_column m col_Net_Price_1_Revenue) eqn:H2; [|reflexivity].
  destruct (has_column m col_tier) eqn:H3; [|reflexivity].
  cbn [bind andb]. rewrite !has_column_boolean_index, H1, H2.
  rewrite boolean_index_isin. cbn [bind rows].
  destruct (has_column m col_Brand); reflexivity.
Qed.

(** ** Aggregator: the combined Tier 2 and Tier 3 count *)

Lemma insert_key_In (x k : string) (l : list string) :
  In x (insert_key k l) <-> x = k \/ In x l.
Proof.
  induction l as [|h t IH]; simpl.
  - intuition.
  - destruct (String.compare k h) eqn:Hc; simpl.
    + apply String.compare_eq_iff in Hc. subst. intuition.
    + intuition.
    + rewrite IH. intuition.
Qed.

Lemma sorted_unique_In (x : string) (l : list string) :
  In x (sorted_unique l) <-> In x l.
Proof.
  unfold sorted_unique. induction l as [|h t IH]; simpl; [tauto|].
  rewrite insert_key_In, IH. intuition.
Qed.

Lemma dropna_In {A : Type} (x : A) (l : list (option A)) :
  In x (dropna l) <-> In (Some x) l.
Proof.
  induction l as [|[a|] t IH]; simpl.
  - tauto.
  - rewrite IH. split; intros [H|H]; auto; left; congruence.
  - rewrite IH. split; [auto|]. intros [H|H]; [discriminate|exact H].
Qed.

Lemma key_is_true (k : string) (c : option string) :
  key_is k c = true <-> c = Some k.
Proof.
  destruct c as [x|]; simpl.
  - rewrite String.eqb_eq. split; congruence.
  - split; discriminate.
Qed.

Lemma group_keys_In (key : Row -> option string) (k : string) (rs : list Row) :
  In k (sorted_unique (dropna (map key rs))) <-> exists r, In r rs /\ key r = Some k.
Proof.
  rewrite sorted_unique_In, dropna_In, in_map_iff.
  split; intros (r & H1 & H2); exists r; auto.
Qed.

Lemma group_rows_In (key : Row -> option string) (k : string) (rs : list Row) (r : Row) :
  In r (group_rows key k rs) <-> In r rs /\ key r = Some k.
Proof. unfold group_rows. now rewrite filter_In, key_is_true. Qed.

Lemma group_rows_nil (key : Row -> option string) (k : string) (rs : list Row) :
  (forall r, In r rs -> key r <> Some k) -> group_rows key k rs = [].
Proof.
  intros H. apply filter_none. intros r Hr.
  destruct (key_is k (key r)) eqn:Hk; [|reflexivity].
  apply key_is_true in Hk. now apply H in Hr.
Qed.

(** Rows without a key are in no group of the two-key [groupby]. *)
Lemma group_rows_both_keys (k t : string) (rs : list Row) :
  group_rows tier t (group_rows Cod_CRM k (filter has_both_keys rs))
  = group_rows tier t (group_rows Cod_CRM k rs).
Proof.
  unfold group_rows. rewrite !filter_filter. apply filter_ext. intros r.
  unfold has_both_keys, key_is.
  destruct (Cod_CRM r), (tier r); simpl; rewrite ?andb_false_r; reflexivity.
Qed.

(** The count that [tier_counts] holds for a pair of keys, zero-filled, is
    the number of distinct products of that pharmacy in that tier. *)
Lemma lookup_count_groupby (rs : list Row) (k t : string) :
  fill_cell 0 (lookup_count (groupby_nunique rs) k t)
  = Some (distinct_products rs k t).
Proof.
  unfold lookup_count, distinct_products.
  destruct (find _ (groupby_nunique rs)) as [c|] eqn:Hf; simpl.
  - apply find_some in Hf as [Hin Hc].
    apply andb_true_iff in Hc as [Hk Ht].
    apply String.eqb_eq in Hk, Ht.
    unfold groupby_nunique in Hin. apply in_flat_map in Hin as (k' & _ & Hin).
    apply in_map_iff in Hin as (t' & <- & _). simpl in *. subst.
    now rewrite group_rows_both_keys.
  - rewrite <- group_rows_both_keys.
    set (keyed := filter has_both_keys rs).
    destruct (group_rows tier t (group_rows Cod_CRM k keyed)) as [|r g] eqn:Hg;
      [reflexivity|exfalso].
    assert (Hr : In r (group_rows tier t (group_rows Cod_CRM k keyed)))
      by (rewrite Hg; simpl; auto).
    apply group_rows_In in Hr as [Hr Ht].
    pose proof Hr as Hr'. apply group_rows_In in Hr' as [Hr' Hk].
    assert (Hin : In {| tc_Cod_CRM := k; tc_tier := t;
                        num_products :=
                          nunique (map Brand
                                     (group_rows tier t (group_rows Cod_CRM k keyed))) |}
                     (groupby_nunique rs)).
    { unfold groupby_nunique. fold keyed. apply in_flat_map. exists k. split.
      - apply group_keys_In. eauto.
      - apply in_map_iff. exists t. split; [reflexivity|].
        apply group_keys_In. eauto. }
    apply (find_none _ _ Hf) in Hin. simpl in Hin.
    rewrite !String.eqb_refl in Hin. discriminate.
Qed.

Lemma groupby_nunique_tier_In (rs : list Row) (c : TierCount) :
  In c (groupby_nunique rs) ->
  exists r, In r rs /\ Cod_CRM r = Some (tc_Cod_CRM c) /\ tier r = Some (tc_tier c).
Proof.
  unfold groupby_nunique. intros Hin.
  apply in_flat_map in Hin as (k & _ & Hin).
  apply in_map_iff in Hin as (t & <- & Ht). simpl.
  apply group_keys_In in Ht as (r & Hr & Ht).
  apply group_rows_In in Hr as [Hr Hk].
  apply filter_In in Hr as [Hr _]. eauto.
Qed.

(** A pharmacy has a row in the pivot as soon as one of its rows has a
    tier label. *)
Lemma pivot_index_In (rs : list Row) (k : string) :
  In k (sorted_unique (map tc_Cod_CRM (groupby_nunique rs)))
  <-> exists r, In r rs /\ Cod_CRM r = Some k /\ tier r <> None.
Proof.
  rewrite sorted_unique_In, in_map_iff. split.
  - intros (c & <- & Hc). apply groupby_nunique_tier_In in Hc as (r & Hr & Hk & Ht).
    exists r. repeat split; auto. congruence.
  - intros (r & Hr & Hk & Ht). destruct (tier r) as [t|] eqn:Et; [|congruence].
    assert (Hkeyed : In r (filter has_both_keys rs)).
    { apply filter_In. split; [exact Hr|]. unfold has_both_keys. now rewrite Hk, Et. }
    exists {| tc_Cod_CRM := k; tc_tier := t;
              num_products :=
                nunique (map Brand
                           (group_rows tier t
                              (group_rows Cod_CRM k (filter has_both_keys rs)))) |}.
    split; [reflexivity|]. unfold groupby_nunique. apply in_flat_map. exists k. split.
    + apply group_keys_In. eauto.
    + apply in_map_iff. exists t. split; [reflexivity|].
      apply group_keys_In. exists r. split; [|exact Et].
      apply group_rows_In. auto.
Qed.

Lemma add_series_map {A : Type} (f g : A -> option Z) (l : list A) :
  add_series (map f l) (map g l) = map (fun x => add_cell (f x) (g x)) l.
Proof.
  induction l as [|x l IH]; simpl; [reflexivity|]. now rewrite IH.
Qed.

Lemma setitem_series_map (h : MergedRow -> option Z) (rs : list MergedRow) :
  setitem rs (Series (map h rs))
  = map (fun r => {| td_merged := r; Tier_2_and_3 := h r |}) rs.
Proof.
  unfold setitem. induction rs as [|r rs IH]; simpl; [reflexivity|].
  now rewrite IH.
Qed.

(** The new column, row by row. *)
Lemma threshold_data_rows (apr : list (string * Z)) (p : TierPivot)
  (r23 : list (string * Z)) :
  td_rows (threshold_data apr p r23)
  = map (fun mr => {| td_merged := mr;
                      Tier_2_and_3 := add_cell (tier_cell (tier_columns p) mr "Tier 2")
                                               (tier_cell (tier_columns p) mr "Tier 3") |})
        (merge_left apr p r23).
Proof.
  unfold threshold_data, get, tier_cell. cbn [td_rows].
  destruct (index_of "Tier 2" (tier_columns p)) as [i|],
           (index_of "Tier 3" (tier_columns p)) as [j|]; cbn [add].
  - rewrite add_series_map. apply setitem_series_map.
  - rewrite map_map. apply setitem_series_map.
  - rewrite map_map. apply setitem_series_map.
  - reflexivity.
Qed.

Lemma lookup_key_map {A : Type} (F : string -> A) (k : string) (keys : list string) :
  lookup_key k (map (fun x => (x, F x)) keys)
  = if existsb (String.eqb k) keys then Some (F k) else None.
Proof.
  induction keys as [|h t IH]; simpl; [reflexivity|].
  rewrite (String.eqb_sym k h).
  destruct (String.eqb h k) eqn:E; simpl; [|exact IH].
  apply String.eqb_eq in E. now subst.
Qed.

Lemma existsb_eqb_In (k : string) (l : list string) :
  existsb (String.eqb k) l = true <-> In k l.
Proof.
  rewrite existsb_exists. split.
  - intros (x & Hx & E). apply String.eqb_eq in E. now subst.
  - intros H. exists k. split; [exact H|apply String.eqb_refl].
Qed.

Lemma index_of_nth {A : Type} (F : string -> A) (d : A) (name : string)
  (cols : list string) (i : nat) :
  index_of name cols = Some i -> nth i (map F cols) d = F name.
Proof.
  revert i. induction cols as [|h t IH]; simpl; intros i; [discriminate|].
  destruct (String.eqb h name) eqn:E.
  - intros [= <-]. apply String.eqb_eq in E. now subst.
  - destruct (index_of name t) as [j|]; [|discriminate].
    intros [= <-]. simpl. now apply IH.
Qed.

Lemma index_of_None (name : string) (cols : list string) :
  index_of name cols = None -> ~ In name cols.
Proof.
  induction cols as [|h t IH]; simpl; [tauto|].
  destruct (String.eqb h name) eqn:E; [discriminate|].
  destruct (index_of name t); [discriminate|].
  intros _ [H|H]; [|now apply IH].
  subst. rewrite String.eqb_refl in E. discriminate.
Qed.

(** The pivot of tier counts, row by row. *)
Lemma tier_counts_pivot_use_rows (tc : list TierCount) :
  tier_rows (tier_counts_pivot_use tc)
  = map (fun k => (k, map (fun t => fill_cell 0 (lookup_count tc k t))
                          (sorted_unique (map tc_tier tc))))
        (sorted_unique (map tc_Cod_CRM tc)).
Proof.
  unfold tier_counts_pivot_use, fillna, pivot. cbn [tier_rows tier_columns].
  rewrite map_map. apply map_ext. intros k. cbn [fst snd]. now rewrite map_map.
Qed.

(** For every pharmacy that has at least one row with a tier label, the
    combined count is the Tier 2 count plus the Tier 3 count, an absent
    pair counting 0. *)
Lemma Tier_2_and_3_when_labelled (m : DataFrame) (agg : Aggregates)
  (row : ThresholdRow) :
  aggregator m = Ok agg ->
  In row (td_rows (agg_threshold_data agg)) ->
  (exists r, In r (rows m) /\ Cod_CRM r = Some (mr_Cod_CRM (td_merged row))
             /\ tier r <> None) ->
  Tier_2_and_3 row
  = Some (distinct_products (rows m) (mr_Cod_CRM (td_merged row)) "Tier 2"
          + distinct_products (rows m) (mr_Cod_CRM (td_merged row)) "Tier 3").
Proof.
  intros Hagg Hrow Hlab. rewrite aggregator_unfold in Hagg.
  destruct (has_columns m aggregator_columns); [|discriminate].
  cbv zeta in Hagg. injection Hagg as <-. cbn [agg_threshold_data] in Hrow.
  rewrite threshold_data_rows in Hrow.
  apply in_map_iff in Hrow as (mr & <- & Hmr). cbn [td_merged Tier_2_and_3] in *.
  unfold merge_left in Hmr. apply in_map_iff in Hmr as ([k v] & <- & _).
  cbn [mr_Cod_CRM fst snd] in *.
  apply pivot_index_In in Hlab. apply existsb_eqb_In in Hlab.
  set (tc := groupby_nunique (rows m)) in *.
  assert (Hcell : forall t,
             tier_cell (tier_columns (tier_counts_pivot_use tc))
               {| mr_Cod_CRM := k; mr_total_net1rev_imponibile := v;
                  mr_tiers :=
                    match lookup_key k (tier_rows (tier_counts_pivot_use tc)) with
                    | Some cells => cells
                    | None => map (fun _ => None) (tier_columns (tier_counts_pivot_use tc))
                    end;
                  tier23_net1rev_imponibile :=
                    lookup_key k
                      (groupby_sum
                         (filter (fun r => cell_isin ["Tier 2"; "Tier 3"] (tier r))
                                 (rows m))) |} t
             = Some (distinct_products (rows m) k t)).
  { intros t. unfold tier_cell. cbn [mr_tiers].
    rewrite tier_counts_pivot_use_rows, lookup_key_map, Hlab.
    change (tier_columns (tier_counts_pivot_use tc))
      with (sorted_unique (map tc_tier tc)).
    destruct (index_of t (sorted_unique (map tc_tier tc))) as [i|] eqn:Hi.
    - rewrite (index_of_nth _ _ _ _ _ Hi). apply lookup_count_groupby.
    - rewrite <- (lookup_count_groupby (rows m) k t). fold tc.
      unfold lookup_count.
      destruct (find _ tc) as [c|] eqn:Hf; [exfalso|reflexivity].
      apply find_some in Hf as [Hin Hc]. apply andb_true_iff in Hc as [_ Ht].
      apply String.eqb_eq in Ht. apply (index_of_None _ _ Hi).
      apply sorted_unique_In, in_map_iff. eauto. }
  now rewrite !Hcell.
Qed.

(** C7.  On [example_table] pharmacy A has one eligible row, whose tier
    label is missing, while other pharmacies have Tier 2 and Tier 3 rows:
    its Tier 2 and Tier 3 counts are both 0, yet its combined count is a
    missing value, because the zero fill precedes the left merge that
    brings in the tier columns. *)
Theorem C7_missing_combined_count :
  exists m agg,
    record_filter example_table no_picks = Ok m
    /\ aggregator m = Ok agg
    /\ In ("A", 500) (agg_all_pharmacy_revenue agg)
    /\ distinct_products (rows m) "A" "Tier 2"
       + distinct_products (rows m) "A" "Tier 3" = 0
    /\ In {| td_merged := {| mr_Cod_CRM := "A";
                             mr_total_net1rev_imponibile := 500;
                             mr_tiers := [None; None; None];
                             tier23_net1rev_imponibile := None |};
             Tier_2_and_3 := None |}
          (td_rows (agg_threshold_data agg))
    /\ map (fun row => (mr_Cod_CRM (td_merged row), Tier_2_and_3 row))
           (td_rows (agg_threshold_data agg))
       = [("A", None); ("B", Some 2); ("C", Some 1)].
Proof.
  do 2 eexists. split; [reflexivity|]. split; [reflexivity|].
  split; [simpl; auto|]. split; [reflexivity|].
  split; [simpl; auto|reflexivity].
Qed.

(** * Further properties of the engine *)

(** ** Group keys are increasing and distinct *)

Lemma insert_key_sorted (k : string) (l : list string) :
  StronglySorted string_lt l -> StronglySorted string_lt (insert_key k l).
Proof.
  induction 1 as [|h t Ht IH Hh]; simpl.
  - repeat constructor.
  - destruct (String.compare k h) eqn:Hc.
    + now constructor.
    + constructor; [now constructor|]. constructor; [exact Hc|].
      eapply Forall_impl; [|exact Hh]. intros x Hx.
      exact (compare_lt_trans k h x Hc Hx).
    + constructor; [exact IH|].
      apply Forall_forall. intros x Hx. apply insert_key_In in Hx as [->|Hx].
      * now apply compare_gt_lt.
      * rewrite Forall_forall in Hh. now apply Hh.
Qed.

Lemma sorted_unique_sorted (l : list string) :
  StronglySorted string_lt (sorted_unique l).
Proof.
  unfold sorted_unique. induction l as [|x l IH]; simpl; [constructor|].
  now apply insert_key_sorted.
Qed.

Lemma sorted_NoDup (l : list string) : StronglySorted string_lt l -> NoDup l.
Proof.
  induction 1 as [|h t Ht IH Hh]; constructor; [|exact IH].
  intros Hin. rewrite Forall_forall in Hh.
  exact (compare_lt_irrefl h (Hh h Hin)).
Qed.

Lemma sorted_unique_NoDup (l : list string) : NoDup (sorted_unique l).
Proof. apply sorted_NoDup, sorted_unique_sorted. Qed.

(** ** The summary table accounts for every pharmacy *)

Lemma all_categories_count (t : list PharmacyRevenue) :
  category_count Silver t + category_count Gold t + category_count Platinum t
  + category_count Unassigned t = Z.of_nat (List.length t).
Proof.
  unfold category_count, in_category.
  induction t as [|r t IH]; [reflexivity|].
  cbn [filter]. destruct (partnership_category r);
    cbn [category_eqb List.length]; rewrite ?Nat2Z.inj_succ; lia.
Qed.

(** ** The category pivot can be read back *)

Lemma dropna_nth_error_nil {A : Type} (s : list nat) :
  dropna (map (@nth_error A []) s) = [].
Proof.
  induction s as [|i s IH]; simpl; [reflexivity|]. now destruct i.
Qed.

Lemma dropna_nth_error_seq {A : Type} (l : list A) (n : nat) :
  (List.length l <= n)%nat -> dropna (map (nth_error l) (seq O n)) = l.
Proof.
  revert n. induction l as [|x l IH]; intros n Hn.
  - apply dropna_nth_error_nil.
  - destruct n as [|n]; [simpl in Hn; lia|].
    cbn [seq map nth_error dropna]. rewrite <- seq_shift, map_map.
    cbn [nth_error]. f_equal. apply IH. simpl in Hn. lia.
Qed.

(** X4.  The category pivot has the four categories as its columns, in
    display order; it is rectangular, with as many rows as the largest
    category has pharmacies; and each column, read top to bottom without
    its padding, is the list of identifiers of the pharmacies of its
    category, in the order of the revenue frame. *)
Theorem X4_category_pivot_round_trip (t : list PharmacyRevenue) :
  cp_columns (category_table_pivot (category_table t)) = order
  /\ (forall i c,
        nth_error order i = Some c ->
        dropna (pivot_column (category_table_pivot (category_table t)) i)
        = map pr_Cod_CRM (filter (in_category c) t))
  /\ Forall (fun row => List.length row = 4%nat)
            (cp_rows (category_table_pivot (category_table t)))
  /\ Z.of_nat (List.length (cp_rows (category_table_pivot (category_table t))))
     = Z.max (category_count Silver t)
             (Z.max (category_count Gold t)
                    (Z.max (category_count Platinum t) (category_count Unassigned t))).
Proof.
  split; [reflexivity|]. split; [|split].
  - intros i c Hi. unfold pivot_column, category_table_pivot, category_table.
    cbn [cp_rows map order]. rewrite map_map.
    set (n := longest _).
    assert (Hn : forall c', In c' order ->
                   (List.length (map pr_Cod_CRM (filter (in_category c') t)) <= n)%nat).
    { intros c' Hc'. unfold n, longest. cbn [fold_right snd].
      destruct Hc' as [<-|[<-|[<-|[<-|[]]]]]; lia. }
    destruct i as [|[|[|[|i]]]]; cbn [nth_error order] in Hi;
      try (injection Hi as <-; cbn [nth snd];
           apply dropna_nth_error_seq, Hn; simpl; tauto).
    now destruct i.
  - unfold category_table_pivot, category_table. cbn [cp_rows].
    apply Forall_forall. intros row Hrow.
    apply in_map_iff in Hrow as (i & <- & _). reflexivity.
  - unfold category_table_pivot, category_table, longest, category_count.
    cbn [cp_rows map order fold_right snd].
    rewrite length_map, length_seq, !length_map. lia.
Qed.

(** ** The shape of the classification *)

Ltac classify_all :=
  rewrite ?last_matching_rule_cases;
  repeat match goal with
    | |- context [?a >=? ?b] => destruct (Z.geb_spec a b); simpl
    | |- context [?a >? ?b] => destruct (Z.gtb_spec a b); simpl
    | |- context [?a <? ?b] => destruct (Z.ltb_spec a b); simpl
    end.

(** X5.  When the Gold range reaches the Platinum threshold
    ([platinum_min <= gold_max]) the classification is monotone: of two
    pharmacies, the one with the larger total never has the lower tier in
    the order Unassigned, Silver, Gold, Platinum. *)
Theorem X5_monotone_without_gap (th : ThresholdConfig) (apr : list (string * Z))
  (r1 r2 : PharmacyRevenue) :
  platinum_min th <= gold_max th ->
  In r1 (assign_categories th apr) ->
  In r2 (assign_categories th apr) ->
  total_net1rev_imponibile r1 <= total_net1rev_imponibile r2 ->
  tier_rank (partnership_category r1) <= tier_rank (partnership_category r2).
Proof.
  intros Hgap H1 H2. apply assign_categories_In in H1 as [_ ->].
  apply assign_categories_In in H2 as [_ ->].
  generalize (total_net1rev_imponibile r1) (total_net1rev_imponibile r2).
  intros v1 v2 Hle. classify_all; lia.
Qed.

Lemma X5_monotone_without_gap_witness :
  platinum_min default_thresholds <= gold_max default_thresholds
  /\ tier_rank (partnership_category (mkPharmacyRevenue "C" 500 Unassigned))
     <= tier_rank (partnership_category (mkPharmacyRevenue "A" 1500 Gold)).
Proof.
  assert (H : platinum_min default_thresholds <= gold_max default_thresholds)
    by (simpl; lia).
  split; [exact H|].
  apply (X5_monotone_without_gap default_thresholds example_revenue _ _ H).
  - simpl. auto.
  - simpl. auto.
  - simpl. lia.
Defined.

(** X6.  When the Gold range starts no higher than the Silver threshold and
    reaches the Platinum threshold ([gold_min <= silver_min] and
    [platinum_min <= gold_max], as with the default thresholds 1000, 1000,
    2000, 2000) no pharmacy is Silver: every total above [silver_min] is
    overwritten by the Gold or the Platinum pass. *)
Theorem X6_silver_never_assigned (th : ThresholdConfig) (apr : list (string * Z)) :
  gold_min th <= silver_min th ->
  platinum_min th <= gold_max th ->
  (forall r, In r (assign_categories th apr) -> partnership_category r <> Silver)
  /\ category_count Silver (assign_categories th apr) = 0
  /\ category_revenue Silver (assign_categories th apr) = 0.
Proof.
  intros H1 H2.
  assert (Hno : forall r, In r (assign_categories th apr) ->
                          partnership_category r <> Silver).
  { intros r Hin. apply assign_categories_In in Hin as [_ ->].
    classify_all; try discriminate; lia. }
  split; [exact Hno|].
  assert (Hnil : filter (in_category Silver) (assign_categories th apr) = []).
  { apply filter_none. intros r Hr. unfold in_category.
    specialize (Hno r Hr). now destruct (partnership_category r). }
  unfold category_count, category_revenue. now rewrite Hnil.
Qed.

Lemma X6_silver_never_assigned_witness :
  gold_min default_thresholds <= silver_min default_thresholds
  /\ platinum_min default_thresholds <= gold_max default_thresholds
  /\ category_count Silver (assign_categories default_thresholds example_revenue) = 0.
Proof.
  assert (H1 : gold_min default_thresholds <= silver_min default_thresholds)
    by (simpl; lia).
  assert (H2 : platinum_min default_thresholds <= gold_max default_thresholds)
    by (simpl; lia).
  split; [exact H1|]. split; [exact H2|].
  exact (proj1 (proj2 (X6_silver_never_assigned default_thresholds example_revenue
                         H1 H2))).
Defined.

(** X7.  A gap between the Gold and the Platinum range inverts the tiers: a
    pharmacy whose total lies in the gap ([gold_max <= total <
    platinum_min]) and above [silver_min] is Silver, although its total is
    larger than that of every Gold pharmacy. *)
Theorem X7_gap_inverts_tiers (th : ThresholdConfig) (apr : list (string * Z))
  (r1 r2 : PharmacyRevenue) :
  In r1 (assign_categories th apr) ->
  In r2 (assign_categories th apr) ->
  partnership_category r1 = Gold ->
  gold_max th <= total_net1rev_imponibile r2 ->
  total_net1rev_imponibile r2 < platinum_min th ->
  silver_min th < total_net1rev_imponibile r2 ->
  partnership_category r2 = Silver
  /\ total_net1rev_imponibile r1 < total_net1rev_imponibile r2.
Proof.
  intros H1 H2. apply assign_categories_In in H1 as [_ ->].
  apply assign_categories_In in H2 as [_ ->].
  generalize (total_net1rev_imponibile r1) (total_net1rev_imponibile r2).
  intros v1 v2. classify_all; intros; try discriminate; split;
    try reflexivity; lia.
Qed.

Lemma X7_gap_inverts_tiers_witness :
  In (mkPharmacyRevenue "A" 1500 Gold) (assign_categories gap_thresholds example_revenue)
  /\ In (mkPharmacyRevenue "B" 2500 Silver)
        (assign_categories gap_thresholds example_revenue)
  /\ partnership_category (mkPharmacyRevenue "B" 2500 Silver) = Silver
  /\ total_net1rev_imponibile (mkPharmacyRevenue "A" 1500 Gold)
     < total_net1rev_imponibile (mkPharmacyRevenue "B" 2500 Silver).
Proof.
  assert (H1 : In (mkPharmacyRevenue "A" 1500 Gold)
                  (assign_categories gap_thresholds example_revenue))
    by (simpl; auto).
  assert (H2 : In (mkPharmacyRevenue "B" 2500 Silver)
                  (assign_categories gap_thresholds example_revenue))
    by (simpl; auto).
  split; [exact H1|]. split; [exact H2|].
  apply (X7_gap_inverts_tiers gap_thresholds example_revenue _ _ H1 H2).
  - reflexivity.
  - simpl. lia.
  - simpl. lia.
  - simpl. lia.
Defined.

(** ** Further properties of the record filter and of the runs *)

Lemma conflicts_fails (values : list string) (required : string) (c : option string) :
  conflicts values required = true ->
  passes values c && key_is required c = false.
Proof.
  unfold conflicts, passes. intros H. apply andb_true_iff in H as [Ht Hn].
  rewrite Ht. simpl. destruct c as [x|]; simpl; [|reflexivity].
  destruct (String.eqb x required) eqn:E; [|apply andb_false_r].
  apply String.eqb_eq in E. subst x.
  apply negb_true_iff in Hn. rewrite Hn. reflexivity.
Qed.

Lemma record_filter_inv (df : DataFrame) (sel : Selections) (m : DataFrame) :
  record_filter df sel = Ok m ->
  has_columns df filter_columns = true
  /\ m = {| columns := columns df;
            rows := filter (fun r => passes_inclusion_lists df sel r && eligible r)
                           (rows df) |}.
Proof.
  intros Hm. destruct (has_columns df filter_columns) eqn:Hc.
  - split; [reflexivity|]. rewrite record_filter_ok in Hm by exact Hc. congruence.
  - destruct (record_filter_raises df sel Hc) as (e & He). congruence.
Qed.

Lemma has_columns_filter_columns (df : DataFrame) :
  has_columns df filter_columns = true ->
  has_column df col_Channel = true /\ has_column df col_Causale = true
  /\ has_column df col_Canale = true /\ has_column df col_Out_of_Scope_Filter = true
  /\ has_column df col_Cluster_Check = true.
Proof.
  unfold has_columns, filter_columns. cbn [forallb].
  rewrite !andb_true_iff. tauto.
Qed.

(** X8.  A user filter on Channel, Causale or the scope flag that is
    supplied and leaves out the value the fixed rule requires
    ("Independent Pharmacies", "Vendita", "In scope") empties the filtered
    record set, whatever the table. *)
Theorem X8_conflicting_filter_empties (df : DataFrame) (sel : Selections)
  (m : DataFrame) :
  record_filter df sel = Ok m ->
  conflicts (pick_Channel sel) "Independent Pharmacies"
  || conflicts (pick_Causale sel) "Vendita"
  || conflicts (pick_Out_of_Scope_Filter sel) "In scope" = true ->
  rows m = [].
Proof.
  intros Hm Hconf. apply record_filter_inv in Hm as [Hc ->]. cbn [rows].
  apply has_columns_filter_columns in Hc as (H1 & H2 & H3 & H4 & H5).
  apply filter_none. intros r _.
  unfold passes_inclusion_lists, eligible, supplied. rewrite H1, H2, H3, H4.
  apply orb_true_iff in Hconf as [Hconf|Hconf];
    [apply orb_true_iff in Hconf as [Hconf|Hconf]|].
  - apply (conflicts_fails _ _ (Channel r)) in Hconf.
    destruct (passes (pick_Channel sel) (Channel r)),
      (key_is "Independent Pharmacies" (Channel r)); try discriminate;
      cbn [andb]; rewrite ?andb_false_r; reflexivity.
  - apply (conflicts_fails _ _ (Causale r)) in Hconf.
    destruct (passes (pick_Causale sel) (Causale r)),
      (key_is "Vendita" (Causale r)); try discriminate;
      cbn [andb]; rewrite ?andb_false_r; reflexivity.
  - apply (conflicts_fails _ _ (Out_of_Scope_Filter r)) in Hconf.
    destruct (passes (pick_Out_of_Scope_Filter sel) (Out_of_Scope_Filter r)),
      (key_is "In scope" (Out_of_Scope_Filter r)); try discriminate;
      cbn [andb]; rewrite ?andb_false_r; reflexivity.
Qed.

Lemma X8_conflicting_filter_empties_witness :
  record_filter mixed_table hospital_picks = Ok {| columns := all_columns; rows := [] |}
  /\ rows {| columns := all_columns; rows := [] |} = [].
Proof.
  assert (H : record_filter mixed_table hospital_picks
              = Ok {| columns := all_columns; rows := [] |}) by reflexivity.
  split; [exact H|].
  exact (X8_conflicting_filter_empties mixed_table hospital_picks _ H eq_refl).
Defined.

Lemma passes_no_picks (df : DataFrame) (r : Row) :
  passes_inclusion_lists df no_picks r = true.
Proof.
  unfold passes_inclusion_lists, supplied, no_picks. cbn [pick_Channel
    pick_Product_Type pick_Causale pick_Canale pick_Out_of_Scope_Filter].
  destruct (has_column df col_Channel), (has_column df col_Product_Type),
    (has_column df col_Causale), (has_column df col_Canale),
    (has_column df col_Out_of_Scope_Filter); reflexivity.
Qed.

(** X9.  With no optional filter selected, [app.py] and the sibling script
    end in the same way, with the same tables or the same error, on every
    table that has the [Canale] column besides the four columns of the
    fixed rule and whose widgets can be built. *)
Theorem X9_scripts_agree_without_filters (df : DataFrame) (th : ThresholdConfig) :
  widgets_sortable df = true ->
  has_columns df filter_columns = true ->
  app_script df no_picks th = simulation_script df th.
Proof.
  intros Hw Hc. unfold app_script, simulation_script. rewrite Hw.
  unfold app_run, simulation_run.
  rewrite record_filter_ok by exact Hc.
  apply has_columns_filter_columns in Hc as (H1 & H2 & H3 & H4 & H5).
  rewrite merged_pharmacies_ok
    by (unfold has_columns, fixed_rule_columns; cbn [forallb];
        now rewrite H1, H2, H4, H5).
  cbn [bind].
  replace (filter (fun r => passes_inclusion_lists df no_picks r && eligible r) (rows df))
    with (filter eligible (rows df)); [reflexivity|].
  apply filter_ext. intros r. now rewrite passes_no_picks.
Qed.

Lemma X9_scripts_agree_without_filters_witness :
  widgets_sortable example_table = true
  /\ has_columns example_table filter_columns = true
  /\ app_script example_table no_picks default_thresholds
     = simulation_script example_table default_thresholds.
Proof.
  assert (H0 : widgets_sortable example_table = true) by reflexivity.
  assert (H : has_columns example_table filter_columns = true) by reflexivity.
  split; [exact H0|]. split; [exact H|].
  exact (X9_scripts_agree_without_filters example_table default_thresholds H0 H).
Defined.

(** X10.  The filtered record set keeps the columns of the table and its
    rows in their order, each as often as it occurs; and the record filter
    is idempotent: filtering the filtered record set again with the same
    selections returns it unchanged. *)
Theorem X10_record_filter_idempotent (df : DataFrame) (sel : Selections)
  (m : DataFrame) :
  record_filter df sel = Ok m ->
  columns m = columns df
  /\ rows m = filter (fun r => passes_inclusion_lists df sel r && eligible r) (rows df)
  /\ record_filter m sel = Ok m.
Proof.
  intros Hm. apply record_filter_inv in Hm as [Hc ->]. cbn [columns rows].
  split; [reflexivity|]. split; [reflexivity|].
  rewrite record_filter_ok by exact Hc. cbn [columns rows].
  rewrite filter_filter. do 2 f_equal. apply filter_ext. intros r.
  unfold passes_inclusion_lists, supplied. rewrite !has_column_mk.
  fold (has_column df col_Channel). fold (has_column df col_Product_Type).
  fold (has_column df col_Causale). fold (has_column df col_Canale).
  fold (has_column df col_Out_of_Scope_Filter).
  apply andb_diag.
Qed.

Lemma X10_record_filter_idempotent_witness :
  record_filter example_table example_picks = Ok example_filtered
  /\ record_filter example_filtered example_picks = Ok example_filtered.
Proof.
  assert (H : record_filter example_table example_picks = Ok example_filtered)
    by reflexivity.
  split; [exact H|].
  exact (proj2 (proj2 (X10_record_filter_idempotent _ _ _ H))).
Defined.


(** ** Further properties of the aggregator *)

Lemma groupby_nunique_In (rs : list Row) (c : TierCount) :
  In c (groupby_nunique rs) <->
  (exists r, In r rs /\ Cod_CRM r = Some (tc_Cod_CRM c) /\ tier r = Some (tc_tier c))
  /\ num_products c = distinct_products rs (tc_Cod_CRM c) (tc_tier c).
Proof.
  split.
  - intros Hin. split; [now apply groupby_nunique_tier_In|].
    unfold groupby_nunique in Hin. apply in_flat_map in Hin as (k & _ & Hin).
    apply in_map_iff in Hin as (t & <- & _). cbn [num_products tc_Cod_CRM tc_tier].
    unfold distinct_products. now rewrite group_rows_both_keys.
  - intros [(r & Hr & Hk & Ht) Hn]. destruct c as [k t n]. cbn in *. subst n.
    assert (Hkeyed : In r (filter has_both_keys rs)).
    { apply filter_In. split; [exact Hr|]. unfold has_both_keys. now rewrite Hk, Ht. }
    unfold groupby_nunique. apply in_flat_map. exists k. split.
    + apply group_keys_In. eauto.
    + apply in_map_iff. exists t. split.
      * unfold distinct_products. now rewrite group_rows_both_keys.
      * apply group_keys_In. exists r. split; [|exact Ht].
        apply group_rows_In. auto.
Qed.

Lemma NoDup_map_injective {A B : Type} (f : A -> B) (l : list A) :
  (forall a b, f a = f b -> a = b) -> NoDup l -> NoDup (map f l).
Proof.
  intros Hf. induction 1 as [|x l Hx Hl IH]; simpl; constructor; [|exact IH].
  intros Hin. apply in_map_iff in Hin as (y & Hy & Hin).
  apply Hf in Hy. now subst.
Qed.

Lemma groupby_nunique_keys_NoDup (rs : list Row) :
  NoDup (map tc_keys (groupby_nunique rs)).
Proof.
  unfold groupby_nunique.
  set (keyed := filter has_both_keys rs).
  generalize (sorted_unique_NoDup (dropna (map Cod_CRM keyed))).
  generalize (sorted_unique (dropna (map Cod_CRM keyed))). intros K HK.
  induction HK as [|k K Hnotin HK IH]; [constructor|].
  cbn [flat_map]. rewrite map_app. apply NoDup_app.
  - rewrite map_map. unfold tc_keys. cbn [tc_Cod_CRM tc_tier].
    apply NoDup_map_injective; [|apply sorted_unique_NoDup].
    intros a b [= ->]. reflexivity.
  - exact IH.
  - intros [k' t'] H1 H2. rewrite map_map in H1.
    apply in_map_iff in H1 as (t & [= <- <-] & _).
    apply in_map_iff in H2 as (c & Hc & Hin).
    apply in_flat_map in Hin as (k2 & Hk2 & Hin).
    apply in_map_iff in Hin as (t2 & <- & _).
    unfold tc_keys in Hc. cbn in Hc. injection Hc as -> _. contradiction.
Qed.

Lemma pivot_cells_length (tc : list TierCount) (k : string) :
  List.length (match lookup_key k (tier_rows (tier_counts_pivot_use tc)) with
               | Some cells => cells
               | None => map (fun _ => None) (tier_columns (tier_counts_pivot_use tc))
               end)
  = List.length (tier_columns (tier_counts_pivot_use tc)).
Proof.
  rewrite tier_counts_pivot_use_rows, lookup_key_map.
  change (tier_columns (tier_counts_pivot_use tc)) with (sorted_unique (map tc_tier tc)).
  destruct (existsb _ _); now rewrite length_map.
Qed.

(** * Dtypes and clashing names *)

(** ** The sum of a numeric column *)

Section ExactSums.

Variable D : NumDtype.
Variable valid : num D -> Prop.
Hypothesis exact : Exact D valid.

(** In exact arithmetic the compensation stays 0. *)
Lemma kahan_step_exact (s v : num D) :
  valid s -> valid v ->
  kahan_step D (s, num_zero D) v = (num_add D s v, num_zero D).
Proof.
  intros Hs Hv. unfold kahan_step. cbn [fst snd].
  rewrite (sub_zero D valid exact v Hv), (sub_cancel D valid exact s v Hs Hv).
  now destruct (num_isnan D (num_zero D)).
Qed.

Lemma accumulate_exact (s : num D) (c : option (num D)) :
  valid s -> valid_cell valid c ->
  exists t, valid t /\ accumulate D (s, num_zero D) c = (t, num_zero D).
Proof.
  intros Hs Hc. destruct c as [v|]; cbn [accumulate].
  - rewrite kahan_step_exact by assumption. eexists. split; [|reflexivity].
    now apply (valid_add D valid exact).
  - now exists s.
Qed.

Lemma accumulate_swap (s : num D) (a b : option (num D)) :
  valid s -> valid_cell valid a -> valid_cell valid b ->
  accumulate D (accumulate D (s, num_zero D) a) b
  = accumulate D (accumulate D (s, num_zero D) b) a.
Proof.
  intros Hs Ha Hb. destruct a as [x|], b as [y|]; cbn [accumulate valid_cell] in *;
    try reflexivity.
  rewrite !kahan_step_exact;
    try assumption; try now apply (valid_add D valid exact).
  f_equal. now apply (add_swap D valid exact).
Qed.

Lemma fold_accumulate_perm (l l' : list (option (num D))) :
  Permutation l l' ->
  Forall (valid_cell valid) l ->
  forall s, valid s ->
  fold_left (accumulate D) l (s, num_zero D)
  = fold_left (accumulate D) l' (s, num_zero D).
Proof.
  induction 1 as [|x l l' Hp IH|x y l|l l' l'' Hp1 IH1 Hp2 IH2]; intros Hall s Hs.
  - reflexivity.
  - inversion Hall as [|? ? Hx Hl]; subst. cbn [fold_left].
    destruct (accumulate_exact s x Hs Hx) as (t & Ht & ->). now apply IH.
  - inversion Hall as [|? ? Hy Hl]; subst.
    inversion Hl as [|? ? Hx Hl']; subst. cbn [fold_left].
    now rewrite accumulate_swap.
  - rewrite IH1 by assumption. apply IH2; [|assumption].
    now apply (Permutation_Forall Hp1).
Qed.

Lemma group_sum_perm (l l' : list (option (num D))) :
  Permutation l l' -> Forall (valid_cell valid) l ->
  group_sum D l = group_sum D l'.
Proof.
  intros Hp Hall. unfold group_sum. f_equal.
  apply fold_accumulate_perm; [assumption|assumption|].
  apply (valid_zero D valid exact).
Qed.

End ExactSums.

Lemma wrap64_add_l (x y : Z) : wrap64 (wrap64 x + y) = wrap64 (x + y).
Proof.
  unfold wrap64. f_equal.
  replace ((x + 2 ^ 63) mod 2 ^ 64 - 2 ^ 63 + y + 2 ^ 63)
    with ((x + 2 ^ 63) mod 2 ^ 64 + y) by ring.
  rewrite Zplus_mod_idemp_l. f_equal. ring.
Qed.

Lemma wrap64_in_int64 (z : Z) : in_int64 (wrap64 z).
Proof.
  unfold in_int64, wrap64.
  pose proof (Z.mod_pos_bound (z + 2 ^ 63) (2 ^ 64) eq_refl) as H.
  change (2 ^ 64) with (2 * 2 ^ 63) in *. lia.
Qed.

Lemma wrap64_small (z : Z) : in_int64 z -> wrap64 z = z.
Proof.
  unfold in_int64, wrap64. intros H.
  rewrite Z.mod_small; [ring|]. change (2 ^ 64) with (2 * 2 ^ 63). lia.
Qed.

(** The wrap-around arithmetic of [int64] is exact in this sense. *)
Lemma int64_exact : Exact int64 in_int64.
Proof.
  constructor; cbn [num num_zero num_add num_sub int64].
  - unfold in_int64. split; [now apply Z.opp_nonpos_nonneg|reflexivity].
  - intros a b _ _. apply wrap64_in_int64.
  - intros a b c _ _ _. rewrite !wrap64_add_l. f_equal. ring.
  - intros a Ha. rewrite Z.sub_0_r. now apply wrap64_small.
  - intros a b _ _.
    replace (wrap64 (a + b) - a) with (wrap64 (a + b) + - a) by ring.
    rewrite wrap64_add_l.
    replace (wrap64 (a + b + - a) - b) with (wrap64 (a + b + - a) + - b) by ring.
    rewrite wrap64_add_l.
    replace (a + b + - a + - b) with 0 by ring. reflexivity.
Qed.

Lemma group_index_perm {A : Type} (dt : KeyDtype) (key : A -> option string)
  (rs rs' : list A) :
  Permutation rs rs' ->
  group_index dt (map key rs) = group_index dt (map key rs').
Proof.
  intros H. destruct dt as [|categories]; [|reflexivity]. cbn [group_index].
  apply sorted_unique_perm, dropna_perm, Permutation_map, H.
Qed.

Lemma groupby_sum_numeric_perm (D : NumDtype) (valid : num D -> Prop)
  (dt : KeyDtype) (rs rs' : list (NumRow D)) :
  Exact D valid ->
  Forall (fun r => valid_cell valid (snd r)) rs ->
  Permutation rs rs' ->
  groupby_sum_numeric D dt rs = groupby_sum_numeric D dt rs'.
Proof.
  intros E Hall Hp. unfold groupby_sum_numeric.
  rewrite (group_index_perm dt (fun r => Cod_CRM (fst r)) rs rs' Hp).
  apply map_ext. intros k. f_equal.
  apply (group_sum_perm D valid E).
  - apply Permutation_map, filter_perm, Hp.
  - apply Forall_map. apply Forall_forall. intros r Hr.
    apply filter_In in Hr as [Hr _].
    exact (proj1 (Forall_forall _ _) Hall r Hr).
Qed.

Lemma distinct_products_perm (rs rs' : list Row) (k t : string) :
  Permutation rs rs' -> distinct_products rs k t = distinct_products rs' k t.
Proof.
  intros H. unfold distinct_products.
  apply nunique_perm, Permutation_map, group_rows_perm, group_rows_perm, H.
Qed.

Lemma groupby_nunique_default_perm (dt dt_tier : KeyDtype) (rs rs' : list Row) :
  Permutation rs rs' ->
  groupby_nunique_default dt dt_tier rs = groupby_nunique_default dt dt_tier rs'.
Proof.
  intros H.
  assert (Hprod :
    flat_map
      (fun k => map (fun t => {| tc_Cod_CRM := k; tc_tier := t;
                                 num_products := distinct_products rs k t |})
                    (group_index dt_tier (map tier rs)))
      (group_index dt (map Cod_CRM rs))
    = flat_map
        (fun k => map (fun t => {| tc_Cod_CRM := k; tc_tier := t;
                                   num_products := distinct_products rs' k t |})
                      (group_index dt_tier (map tier rs')))
        (group_index dt (map Cod_CRM rs'))).
  { rewrite (group_index_perm dt Cod_CRM rs rs' H).
    rewrite (group_index_perm dt_tier tier rs rs' H).
    apply flat_map_ext'. intros k. apply map_ext. intros t.
    now rewrite (distinct_products_perm rs rs' k t H). }
  unfold groupby_nunique_default.
  destruct dt, dt_tier; try exact Hprod. now apply groupby_nunique_perm.
Qed.

Lemma groupby_sum_observed_False_perm (dt : KeyDtype) (rs rs' : list Row) :
  Permutation rs rs' ->
  groupby_sum_observed_False dt rs = groupby_sum_observed_False dt rs'.
Proof.
  intros H. unfold groupby_sum_observed_False.
  rewrite (group_index_perm dt Cod_CRM rs rs' H).
  apply map_ext. intros k. f_equal.
  apply sum_skipna_perm, Permutation_map, group_rows_perm, H.
Qed.

(** The three frames read their columns and are otherwise functions of
    the rows. *)
Lemma all_pharmacy_revenue_dtype_unfold (dt : KeyDtype) (m : DataFrame) :
  all_pharmacy_revenue_dtype dt m
  = if has_column m col_Cod_CRM then
      if has_column m col_Net_Price_1_Revenue then
        Ok (groupby_sum_observed_False dt (rows m))
      else Raise (KeyError col_Net_Price_1_Revenue)
    else Raise (KeyError col_Cod_CRM).
Proof.
  unfold all_pharmacy_revenue_dtype, getitem.
  destruct (has_column m col_Cod_CRM); [|reflexivity].
  destruct (has_column m col_Net_Price_1_Revenue); reflexivity.
Qed.

Lemma rev_tier23_dtype_unfold (dt : KeyDtype) (m : DataFrame) :
  rev_tier23_dtype dt m
  = if has_column m col_tier then
      if has_column m col_Cod_CRM then
        if has_column m col_Net_Price_1_Revenue then
          Ok (groupby_sum_observed_False dt (filter in_tier23 (rows m)))
        else Raise (KeyError col_Net_Price_1_Revenue)
      else Raise (KeyError col_Cod_CRM)
    else Raise (KeyError col_tier).
Proof.
  unfold rev_tier23_dtype, getitem.
  destruct (has_column m col_tier); [|reflexivity].
  cbn [bind]. rewrite !has_column_boolean_index, boolean_index_isin.
  destruct (has_column m col_Cod_CRM); [|reflexivity].
  destruct (has_column m col_Net_Price_1_Revenue); reflexivity.
Qed.

Lemma tier_counts_dtype_unfold (dt dt_tier : KeyDtype) (m : DataFrame) :
  tier_counts_dtype dt dt_tier m
  = if has_column m col_Cod_CRM then
      if has_column m col_tier then
        if has_column m col_Brand then
          Ok (groupby_nunique_default dt dt_tier (rows m))
        else Raise (KeyError col_Brand)
      else Raise (KeyError col_tier)
    else Raise (KeyError col_Cod_CRM).
Proof.
  unfold tier_counts_dtype, getitem.
  destruct (has_column m col_Cod_CRM); [|reflexivity].
  destruct (has_column m col_tier); [|reflexivity].
  destruct (has_column m col_Brand); reflexivity.
Qed.

Lemma frames_perm (dt dt_tier : KeyDtype) (m : DataFrame) (reordered : list Row) :
  Permutation (rows m) reordered ->
  let m' := {| columns := columns m; rows := reordered |} in
  all_pharmacy_revenue_dtype dt m = all_pharmacy_revenue_dtype dt m'
  /\ rev_tier23_dtype dt m = rev_tier23_dtype dt m'
  /\ tier_counts_dtype dt dt_tier m = tier_counts_dtype dt dt_tier m'.
Proof.
  intros H m'.
  rewrite !all_pharmacy_revenue_dtype_unfold, !rev_tier23_dtype_unfold,
    !tier_counts_dtype_unfold.
  unfold m', has_column. cbn [columns rows].
  rewrite (groupby_sum_observed_False_perm dt _ _ H).
  rewrite (groupby_sum_observed_False_perm dt _ _ (filter_perm in_tier23 _ _ H)).
  rewrite (groupby_nunique_default_perm dt dt_tier _ _ H).
  repeat split; reflexivity.
Qed.

Lemma aggregator_dtype_perm (dt : KeyDtype) (m : DataFrame) (reordered : list Row) :
  Permutation (rows m) reordered ->
  aggregator_dtype dt m = aggregator_dtype dt {| columns := columns m; rows := reordered |}.
Proof.
  intros H. unfold aggregator_dtype.
  destruct (frames_perm dt Object m reordered H) as (-> & -> & ->). reflexivity.
Qed.

(** C6, as stated, fails on a [float64] revenue column: the total of a
    pharmacy depends on the order of its rows. *)
Lemma C6_counterexample :
  Permutation float_rows float_rows_reordered
  /\ all_pharmacy_revenue_numeric float64 Object float_rows = [("A", 0%float)]
  /\ all_pharmacy_revenue_numeric float64 Object float_rows_reordered = [("A", 1%float)]
  /\ all_pharmacy_revenue_numeric float64 Object float_rows
     <> all_pharmacy_revenue_numeric float64 Object float_rows_reordered.
Proof.
  split; [|split; [|split]].
  - unfold float_rows, float_rows_reordered. apply perm_skip, perm_swap.
  - vm_compute. reflexivity.
  - vm_compute. reflexivity.
  - intros H.
    apply (f_equal (fun l => match l with
                             | (_, x) :: _ => PrimFloat.eqb x 1
                             | [] => false
                             end)) in H.
    vm_compute in H. discriminate H.
Qed.

(** C6, amended.  On a revenue column whose arithmetic is exact (an integer
    column: [int64] with its wrap-around is one), reordering the rows of
    the filtered record set leaves the output of the aggregator unchanged,
    whatever the dtype of the key columns: the revenue total per pharmacy,
    the Tier 2 / Tier 3 revenue subtotal and the distinct-product count
    per pharmacy and tier; and with it the whole run of lines 76-96, the
    merged frame or the error it stops on. *)
Theorem C6_aggregator_order_independent (D : NumDtype) (valid : num D -> Prop)
  (dt dt_tier : KeyDtype) (rs reordered : list (NumRow D)) :
  Exact D valid ->
  Forall (fun r => valid_cell valid (snd r)) rs ->
  Permutation rs reordered ->
  all_pharmacy_revenue_numeric D dt rs = all_pharmacy_revenue_numeric D dt reordered
  /\ rev_tier23_numeric D dt rs = rev_tier23_numeric D dt reordered
  /\ tier_counts_numeric D dt dt_tier rs = tier_counts_numeric D dt dt_tier reordered
  /\ (forall m rows',
        Permutation (rows m) rows' ->
        aggregator_dtype dt m
        = aggregator_dtype dt {| columns := columns m; rows := rows' |}).
Proof.
  intros E Hall Hp. split; [|split; [|split]].
  - now apply (groupby_sum_numeric_perm D valid).
  - unfold rev_tier23_numeric. apply (groupby_sum_numeric_perm D valid).
    + exact E.
    + apply Forall_forall. intros r Hr. apply filter_In in Hr as [Hr _].
      exact (proj1 (Forall_forall _ _) Hall r Hr).
    + now apply filter_perm.
  - unfold tier_counts_numeric.
    now apply groupby_nunique_default_perm, Permutation_map.
  - intros m rows' H. now apply aggregator_dtype_perm.
Qed.

Lemma C6_aggregator_order_independent_witness :
  Permutation int64_rows int64_rows_reordered
  /\ all_pharmacy_revenue_numeric int64 categorical_abc int64_rows
     = [("A", - 2 ^ 63 + 7); ("B", 5); ("C", 0)]
  /\ all_pharmacy_revenue_numeric int64 categorical_abc int64_rows
     = all_pharmacy_revenue_numeric int64 categorical_abc int64_rows_reordered
  /\ aggregator_dtype categorical_abc example_filtered
     = aggregator_dtype categorical_abc example_reordered.
Proof.
  assert (Hp : Permutation int64_rows int64_rows_reordered).
  { exact (Permutation_rev int64_rows). }
  assert (Hall : Forall (fun r : NumRow int64 => valid_cell in_int64 (snd r)) int64_rows).
  { unfold int64_rows, in_int64.
    repeat constructor; cbn; try discriminate; try reflexivity. }
  assert (Hrows : Permutation (rows example_filtered) (rows example_reordered)).
  { simpl. eapply perm_trans; [apply perm_swap|].
    do 2 apply perm_skip. apply perm_swap. }
  pose proof (C6_aggregator_order_independent int64 in_int64 categorical_abc Object
                int64_rows int64_rows_reordered int64_exact Hall Hp)
    as (H1 & _ & _ & H4).
  split; [exact Hp|]. split; [vm_compute; reflexivity|]. split; [exact H1|].
  exact (H4 example_filtered _ Hrows).
Defined.

(** ** Lines 91-96: labels that clash with no column name *)

Lemma new_duplicates_same (l : list string) : new_duplicates l l = false.
Proof.
  unfold new_duplicates. induction (duplicated l) as [|b bs IH]; [reflexivity|].
  cbn [combine existsb fst snd]. rewrite IH. now destruct b.
Qed.

Lemma map_suffixed_nil (suffix : string) (l : list string) :
  map (suffixed [] suffix) l = l.
Proof. unfold suffixed. cbn [existsb]. apply map_id. Qed.

(** A merge of frames that share no column name beside [Cod CRM] needs no
    suffix and cannot fail. *)
Lemma merge_disjoint (left right : KeyedFrame) :
  (forall c, In c (kf_columns left) -> ~ In c (kf_columns right)) ->
  merge left right
  = Finished
      {| kf_columns := (kf_columns left ++ kf_columns right)%list;
         kf_rows :=
           map (fun kr =>
                  (fst kr,
                   (snd kr ++ match lookup_key (fst kr) (kf_rows right) with
                              | Some cells => cells
                              | None => map (fun _ => None) (kf_columns right)
                              end)%list))
               (kf_rows left) |}.
Proof.
  intros H. unfold merge.
  rewrite (filter_none _ (kf_columns left)).
  - now rewrite !map_suffixed_nil, !new_duplicates_same.
  - intros c Hc. destruct (existsb (String.eqb c) (kf_columns right)) eqn:E;
      [|reflexivity].
    apply existsb_eqb_In in E. now apply H in Hc.
Qed.

Lemma pivot_labels (tc : list TierCount) :
  tier_columns (fillna 0 (pivot tc)) = sorted_unique (map tc_tier tc).
Proof. reflexivity. Qed.

(** The tier columns of the pivot are tier labels of the rows. *)
Lemma tier_counts_labels (dt : KeyDtype) (rs : list Row) (t : string) :
  In t (tier_columns (fillna 0 (pivot (groupby_nunique_default dt Object rs)))) ->
  In (Some t) (map tier rs).
Proof.
  rewrite pivot_labels, sorted_unique_In, in_map_iff. intros (c & <- & Hc).
  destruct dt as [|categories]; cbn [groupby_nunique_default] in Hc.
  - apply groupby_nunique_tier_In in Hc as (r & Hr & _ & Ht).
    apply in_map_iff. exists r. auto.
  - apply in_flat_map in Hc as (k & _ & Hc).
    apply in_map_iff in Hc as (t & <- & Ht). cbn [tc_tier].
    cbn [group_index] in Ht. now apply sorted_unique_In, dropna_In in Ht.
Qed.

Lemma labels_clear_In (rs : list Row) (t : string) :
  labels_clear rs = true -> In (Some t) (map tier rs) -> ~ In t reserved_names.
Proof.
  unfold labels_clear. intros Hc Hin Hres.
  apply in_map_iff in Hin as (r & Ht & Hr).
  apply (proj1 (forallb_forall _ _) Hc) in Hr. rewrite Ht in Hr. cbn [cell_isin] in Hr.
  apply existsb_eqb_In in Hres. rewrite Hres in Hr. discriminate.
Qed.

Lemma reset_index_Finished (p : TierPivot) :
  ~ In col_Cod_CRM (tier_columns p) ->
  reset_index p = Finished {| kf_columns := tier_columns p; kf_rows := tier_rows p |}.
Proof.
  intros H. unfold reset_index.
  destruct (existsb (String.eqb col_Cod_CRM) (tier_columns p)) eqn:E; [|reflexivity].
  now apply existsb_eqb_In in E.
Qed.

Lemma lookup_frame_of_sums (k : string) (sums : list (string * Z)) :
  match lookup_key k (map (fun kv => (fst kv, [Some (snd kv)])) sums) with
  | Some cells => cells
  | None => [None]
  end = [lookup_key k sums].
Proof.
  induction sums as [|[k' v'] sums IH]; [reflexivity|].
  cbn [map lookup_key fst snd]. now destruct (String.eqb k' k).
Qed.

(** The merged frame, and the combined count added to it. *)
Lemma threshold_data_frame_clear (apr r23 : list (string * Z)) (p : KeyedFrame) :
  ~ In "total_net1rev_imponibile" (kf_columns p) ->
  ~ In "tier23_net1rev_imponibile" (kf_columns p) ->
  threshold_data_frame apr p r23
  = let m2 :=
      {| kf_columns :=
           ("total_net1rev_imponibile" :: kf_columns p
            ++ ["tier23_net1rev_imponibile"])%list;
         kf_rows :=
           map (fun kv =>
                  (fst kv,
                   (Some (snd kv)
                    :: match lookup_key (fst kv) (kf_rows p) with
                       | Some cells => cells
                       | None => map (fun _ => None) (kf_columns p)
                       end
                    ++ [lookup_key (fst kv) r23])%list))
               apr |} in
    Finished (set_column m2 "Tier 2 & 3"
                (add (get_column m2 "Tier 2" 0) (get_column m2 "Tier 3" 0))).
Proof.
  intros H1 H2. unfold threshold_data_frame.
  rewrite merge_disjoint.
  2:{ cbn [frame_of_sums kf_columns]. intros c [<-|[]]. exact H1. }
  rewrite merge_disjoint.
  2:{ cbn [frame_of_sums kf_columns app]. intros c [<-|Hc] [Hx|[]].
      - discriminate Hx.
      - subst c. now apply H2. }
  cbv zeta. f_equal.
  match goal with
  | |- set_column ?M _ _ = set_column ?M' _ _ => assert (HM : M = M')
  end; [|now rewrite HM].
  cbn [frame_of_sums kf_columns kf_rows app]. rewrite !map_map.
  apply (f_equal (mkKeyedFrame _)). apply map_ext. intros [k v].
  cbn [fst snd app map]. do 3 f_equal. apply lookup_frame_of_sums.
Qed.

(** With tier labels that are no reserved name, lines 91-96 run
    through. *)
Lemma lines_91_96_clear (dt : KeyDtype) (rs : list Row) (apr r23 : list (string * Z)) :
  labels_clear rs = true ->
  exists p td,
    reset_index (fillna 0 (pivot (groupby_nunique_default dt Object rs))) = Finished p
    /\ threshold_data_frame apr p r23 = Finished td.
Proof.
  intros Hc.
  set (tc := groupby_nunique_default dt Object rs).
  assert (Hl : forall name, In name reserved_names ->
                            ~ In name (tier_columns (fillna 0 (pivot tc)))).
  { intros name Hn Hin. apply tier_counts_labels in Hin.
    now apply (labels_clear_In rs name Hc Hin). }
  eexists. eexists. split.
  - apply reset_index_Finished. apply Hl. cbn. auto.
  - rewrite threshold_data_frame_clear; [reflexivity| |]; cbn [kf_columns];
      apply Hl; cbn; auto.
Qed.

(** The engine reads four columns, in this order; when no tier label is
    a reserved name it stops on nothing else, and builds its tables
    from the revenue sums alone. *)
Lemma engine_dtype_clear (dt : KeyDtype) (th : ThresholdConfig) (m : DataFrame) :
  labels_clear (rows m) = true ->
  engine_dtype dt th m
  = if has_column m col_Cod_CRM then
      if has_column m col_Net_Price_1_Revenue then
        if has_column m col_tier then
          if has_column m col_Brand then
            Finished (build_tables th (groupby_sum_observed_False dt (rows m)))
          else raised (KeyError col_Brand)
        else raised (KeyError col_tier)
      else raised (KeyError col_Net_Price_1_Revenue)
    else raised (KeyError col_Cod_CRM).
Proof.
  intros Hc. unfold engine_dtype, aggregator_dtype.
  rewrite all_pharmacy_revenue_dtype_unfold, rev_tier23_dtype_unfold,
    tier_counts_dtype_unfold.
  destruct (has_column m col_Cod_CRM); [|reflexivity].
  destruct (has_column m col_Net_Price_1_Revenue); [|reflexivity].
  destruct (has_column m col_tier); [|reflexivity].
  destruct (has_column m col_Brand); [|reflexivity].
  destruct (lines_91_96_clear dt (rows m)
              (groupby_sum_observed_False dt (rows m))
              (groupby_sum_observed_False dt (filter in_tier23 (rows m))) Hc)
    as (p & td & -> & ->).
  reflexivity.
Qed.

Lemma labels_clear_filter (p : Row -> bool) (rs : list Row) :
  labels_clear rs = true -> labels_clear (filter p rs) = true.
Proof.
  unfold labels_clear. rewrite !forallb_forall. intros H r Hr.
  apply filter_In in Hr as [Hr _]. now apply H.
Qed.

(** ** The empty record set *)

(** C9, as stated, fails twice on a table that has every column of the
    input contract and whose filtered record set is empty.  With a
    categorical identifier column the run returns a pharmacy aggregate
    that is not empty: a row with total 0 for every category, and a
    category pivot with these under Unassigned.  With a filter column
    that has text and a missing cell it raises [TypeError] on the
    widgets. *)
Lemma C9_counterexample :
  (has_columns returns_only_table all_columns = true
   /\ record_filter returns_only_table no_picks
      = Ok {| columns := all_columns; rows := [] |}
   /\ exists out,
        app_script_dtype categorical_ids returns_only_table no_picks default_thresholds
        = Finished out
        /\ out_all_pharmacy_revenue out
           = [ mkPharmacyRevenue "A" 0 Unassigned; mkPharmacyRevenue "B" 0 Unassigned ]
        /\ cp_rows (out_category_table_pivot out)
           = [ [None; None; None; Some "A"]; [None; None; None; Some "B"] ])
  /\ (has_columns returns_with_blank_Canale all_columns = true
      /\ record_filter returns_with_blank_Canale no_picks
         = Ok {| columns := all_columns; rows := [] |}
      /\ app_script_dtype Object returns_with_blank_Canale no_picks default_thresholds
         = Stopped TypeError_sorted).
Proof.
  split; [split; [reflexivity|split; [reflexivity|]]|repeat split].
  eexists. split; [reflexivity|]. split; reflexivity.
Qed.

(** C9, amended.  For every table that has the columns the aggregator
    reads, none of whose filter columns mixes text with missing cells and
    whose identifier column is text, and for every filter and threshold
    configuration whose filtered record set is empty, the run raises no
    error and returns an empty pharmacy aggregate, a category pivot
    without rows, and a summary table of zero rows whose grand total is
    0 and 0. *)
Theorem C9_empty_filtered_record_set (df : DataFrame) (sel : Selections)
  (th : ThresholdConfig) (m : DataFrame) :
  has_columns df aggregator_columns = true ->
  widgets_sortable df = true ->
  record_filter df sel = Ok m ->
  rows m = [] ->
  app_script_dtype Object df sel th = Finished empty_outputs
  /\ aggregator_dtype Object m
     = Finished {| fr_all_pharmacy_revenue := [];
                   fr_rev_tier23 := [];
                   fr_tier_counts := [];
                   fr_threshold_data :=
                     {| kf_columns := [ "total_net1rev_imponibile";
                                        "tier23_net1rev_imponibile"; "Tier 2 & 3" ];
                        kf_rows := [] |} |}.
Proof.
  intros Hagg Hsort Hm Hrows.
  apply record_filter_inv in Hm as Hinv. destruct Hinv as [_ Hcols].
  assert (Hagg' : has_columns m aggregator_columns = true).
  { rewrite Hcols. exact Hagg. }
  unfold has_columns, aggregator_columns in Hagg'. cbn [forallb] in Hagg'.
  rewrite !andb_true_iff in Hagg'. destruct Hagg' as (H1 & H2 & H3 & H4 & _).
  split.
  - unfold app_script_dtype. rewrite Hsort, Hm.
    rewrite engine_dtype_clear by now rewrite Hrows.
    now rewrite H1, H2, H3, H4, Hrows.
  - unfold aggregator_dtype.
    rewrite all_pharmacy_revenue_dtype_unfold, rev_tier23_dtype_unfold,
      tier_counts_dtype_unfold.
    now rewrite H1, H2, H3, H4, Hrows.
Qed.

Lemma C9_empty_filtered_record_set_witness :
  has_columns returns_only_table aggregator_columns = true
  /\ widgets_sortable returns_only_table = true
  /\ record_filter returns_only_table no_picks
     = Ok {| columns := all_columns; rows := [] |}
  /\ app_script_dtype Object returns_only_table no_picks default_thresholds
     = Finished empty_outputs.
Proof.
  assert (H1 : has_columns returns_only_table aggregator_columns = true)
    by reflexivity.
  assert (H2 : widgets_sortable returns_only_table = true) by reflexivity.
  assert (H3 : record_filter returns_only_table no_picks
               = Ok {| columns := all_columns; rows := [] |}) by reflexivity.
  split; [exact H1|]. split; [exact H2|]. split; [exact H3|].
  exact (proj1 (C9_empty_filtered_record_set returns_only_table no_picks
                  default_thresholds _ H1 H2 H3 eq_refl)).
Defined.

(** ** What the tables depend on *)

Lemma engine_dtype_inv (dt : KeyDtype) (th : ThresholdConfig) (m : DataFrame)
  (out : Outputs) :
  engine_dtype dt th m = Finished out ->
  has_columns m aggregator_columns = true
  /\ out = build_tables th (groupby_sum_observed_False dt (rows m)).
Proof.
  unfold engine_dtype, aggregator_dtype, has_columns, aggregator_columns, raised.
  rewrite all_pharmacy_revenue_dtype_unfold, rev_tier23_dtype_unfold,
    tier_counts_dtype_unfold. cbn [forallb].
  destruct (has_column m col_Cod_CRM); [|discriminate].
  destruct (has_column m col_Net_Price_1_Revenue); [|discriminate].
  destruct (has_column m col_tier); [|discriminate].
  destruct (has_column m col_Brand); [|discriminate].
  destruct (reset_index _) as [p|f]; [|discriminate].
  destruct (threshold_data_frame _ _ _) as [td|f]; [|discriminate].
  cbn [fr_all_pharmacy_revenue]. intros [= <-]. split; reflexivity.
Qed.

Lemma engine_dtype_finishes_iff (dt : KeyDtype) (th : ThresholdConfig) (m : DataFrame) :
  labels_clear (rows m) = true ->
  finishes (engine_dtype dt th m) <-> has_columns m aggregator_columns = true.
Proof.
  intros Hc. rewrite engine_dtype_clear by exact Hc.
  unfold has_columns, aggregator_columns, finishes, raised. cbn [forallb].
  destruct (has_column m col_Cod_CRM), (has_column m col_Net_Price_1_Revenue),
    (has_column m col_tier), (has_column m col_Brand); cbn [andb];
    split; try reflexivity; try discriminate;
    try (intros _; eexists; reflexivity); intros (out & Hout); discriminate.
Qed.

(** C10, as stated, fails: two filtered record sets with the same revenue
    sum per pharmacy that differ in one tier label end differently when
    that label is the name of the identifier column, on which
    [reset_index] stops. *)
Lemma C10_counterexample :
  map (has_column example_filtered) aggregator_columns
  = map (has_column example_label_Cod_CRM) aggregator_columns
  /\ groupby_sum_observed_False Object (rows example_filtered)
     = groupby_sum_observed_False Object (rows example_label_Cod_CRM)
  /\ engine_dtype Object default_thresholds example_filtered
     = Finished (build_tables default_thresholds [("A", 500); ("B", 1520); ("C", 2500)])
  /\ engine_dtype Object default_thresholds example_label_Cod_CRM
     = Stopped (ValueError_cannot_insert "Cod CRM").
Proof. repeat split. Qed.

(** C10, amended.  Two filtered record sets that have the same revenue sum
    per pharmacy give, under the same thresholds, the same classified
    frame, category pivot and summary table whenever both runs finish:
    tier labels and brands enter neither, and the category of every
    pharmacy is the decision on its total alone.  Both runs finish, or
    stop on the same missing column, when no tier label is the name of a
    column that the labels are merged with. *)
Theorem C10_tables_depend_on_totals_only (dt1 dt2 : KeyDtype) (th : ThresholdConfig)
  (m1 m2 : DataFrame) :
  groupby_sum_observed_False dt1 (rows m1) = groupby_sum_observed_False dt2 (rows m2) ->
  (forall out1 out2,
     engine_dtype dt1 th m1 = Finished out1 ->
     engine_dtype dt2 th m2 = Finished out2 ->
     out1 = out2)
  /\ (forall out r,
        engine_dtype dt1 th m1 = Finished out ->
        In r (out_all_pharmacy_revenue out) ->
        In (pr_Cod_CRM r, total_net1rev_imponibile r)
           (groupby_sum_observed_False dt1 (rows m1))
        /\ partnership_category r
           = last_matching_rule th (total_net1rev_imponibile r))
  /\ (map (has_column m1) aggregator_columns = map (has_column m2) aggregator_columns ->
      labels_clear (rows m1) = true ->
      labels_clear (rows m2) = true ->
      engine_dtype dt1 th m1 = engine_dtype dt2 th m2
      /\ (has_columns m1 aggregator_columns = true ->
          finishes (engine_dtype dt1 th m1))
      /\ (forall df1 sel1 df2 sel2,
            widgets_sortable df1 = true -> widgets_sortable df2 = true ->
            record_filter df1 sel1 = Ok m1 -> record_filter df2 sel2 = Ok m2 ->
            app_script_dtype dt1 df1 sel1 th = app_script_dtype dt2 df2 sel2 th)
      /\ (forall df1 df2,
            merged_pharmacies df1 = Ok m1 -> merged_pharmacies df2 = Ok m2 ->
            simulation_script_dtype dt1 df1 th = simulation_script_dtype dt2 df2 th)).
Proof.
  intros Hsum. split; [|split].
  - intros out1 out2 H1 H2.
    apply engine_dtype_inv in H1 as [_ ->]. apply engine_dtype_inv in H2 as [_ ->].
    now rewrite Hsum.
  - intros out r Hout Hin. apply engine_dtype_inv in Hout as [_ ->].
    cbn [build_tables out_all_pharmacy_revenue] in Hin.
    now apply assign_categories_In.
  - intros Hcols Hc1 Hc2.
    assert (Heng : engine_dtype dt1 th m1 = engine_dtype dt2 th m2).
    { rewrite !engine_dtype_clear by assumption. unfold aggregator_columns in Hcols.
      injection Hcols as -> -> -> ->. now rewrite Hsum. }
    split; [exact Heng|]. split; [|split].
    + now apply engine_dtype_finishes_iff.
    + intros df1 sel1 df2 sel2 Hs1 Hs2 H1 H2. unfold app_script_dtype.
      now rewrite Hs1, Hs2, H1, H2.
    + intros df1 df2 H1 H2. unfold simulation_script_dtype. now rewrite H1, H2.
Qed.

Lemma C10_tables_depend_on_totals_only_witness :
  groupby_sum_observed_False Object (rows example_filtered)
  = groupby_sum_observed_False categorical_abc (rows example_relabelled)
  /\ map tier (rows example_filtered) <> map tier (rows example_relabelled)
  /\ map Brand (rows example_filtered) <> map Brand (rows example_relabelled)
  /\ engine_dtype Object default_thresholds example_filtered
     = engine_dtype categorical_abc default_thresholds example_relabelled
  /\ finishes (engine_dtype Object default_thresholds example_filtered).
Proof.
  assert (H : groupby_sum_observed_False Object (rows example_filtered)
              = groupby_sum_observed_False categorical_abc (rows example_relabelled))
    by reflexivity.
  destruct (C10_tables_depend_on_totals_only Object categorical_abc
              default_thresholds example_filtered example_relabelled H)
    as (_ & _ & H3).
  destruct (H3 eq_refl eq_refl eq_refl) as (H4 & H5 & _).
  split; [exact H|]. split; [discriminate|]. split; [discriminate|].
  split; [exact H4|]. exact (H5 eq_refl).
Defined.

(** ** The frames of the aggregator *)

(** X1.  The revenue frame has one row per pharmacy.  On a text
    identifier column these are the identifiers that occur in the record
    set; on a categorical one they are the categories, in their order,
    and a category that no row carries has the total 0. *)
Theorem X1_one_row_per_pharmacy (dt : KeyDtype) (m : DataFrame)
  (apr : list (string * Z)) :
  all_pharmacy_revenue_dtype dt m = Ok apr ->
  categories_distinct dt ->
  cells_in dt (map Cod_CRM (rows m)) ->
  NoDup (map fst apr)
  /\ (forall k, (exists r, In r (rows m) /\ Cod_CRM r = Some k) -> In k (map fst apr))
  /\ match dt with
     | Object =>
         forall k, In k (map fst apr) -> exists r, In r (rows m) /\ Cod_CRM r = Some k
     | Categorical categories =>
         map fst apr = categories
         /\ forall k, In k categories ->
                      (forall r, In r (rows m) -> Cod_CRM r <> Some k) ->
                      In (k, 0) apr
     end.
Proof.
  intros Hapr Hd Hin. rewrite all_pharmacy_revenue_dtype_unfold in Hapr.
  destruct (has_column m col_Cod_CRM); [|discriminate].
  destruct (has_column m col_Net_Price_1_Revenue); [|discriminate].
  injection Hapr as <-.
  assert (Hkeys : map fst (groupby_sum_observed_False dt (rows m))
                  = group_index dt (map Cod_CRM (rows m))).
  { unfold groupby_sum_observed_False. rewrite map_map. cbn [fst]. apply map_id. }
  rewrite Hkeys. destruct dt as [|categories]; cbn [group_index] in *.
  - split; [apply sorted_unique_NoDup|]. split; intros k; apply group_keys_In.
  - split; [exact Hd|]. split.
    + intros k (r & Hr & Hk). apply Hin. rewrite <- Hk. now apply in_map.
    + split; [reflexivity|]. intros k Hk Hnone.
      unfold groupby_sum_observed_False. cbn [group_index].
      apply in_map_iff. exists k. split; [|exact Hk].
      now rewrite group_rows_nil.
Qed.

Lemma X1_one_row_per_pharmacy_witness :
  all_pharmacy_revenue_dtype categorical_abc returns_and_sales
  = Ok [("A", 500); ("B", 0); ("C", 2500)]
  /\ NoDup (map fst [("A", 500); ("B", 0); ("C", 2500)])
  /\ In ("B", 0) [("A", 500); ("B", 0); ("C", 2500)].
Proof.
  assert (H : all_pharmacy_revenue_dtype categorical_abc returns_and_sales
              = Ok [("A", 500); ("B", 0); ("C", 2500)]) by reflexivity.
  assert (Hd : categories_distinct categorical_abc).
  { cbn. repeat constructor; cbn; intuition discriminate. }
  assert (Hin : cells_in categorical_abc (map Cod_CRM (rows returns_and_sales))).
  { cbn. intros k [H1|[H1|[]]]; injection H1 as <-; auto. }
  destruct (X1_one_row_per_pharmacy categorical_abc returns_and_sales _ H Hd Hin)
    as (Hn & _ & _ & Hz).
  split; [exact H|]. split; [exact Hn|].
  apply (Hz "B"); [cbn; auto|].
  cbn. intros r [<-|[<-|[]]]; discriminate.
Defined.

(** X3.  In every run that finishes, the four category rows of the summary
    table account for each pharmacy of the revenue frame once: their
    counts add up to its number of rows, which is the number of distinct
    identifiers of the record set on a text identifier column and the
    number of categories on a categorical one; the grand total counts
    all of them but the Unassigned. *)
Theorem X3_summary_accounts_for_all (dt : KeyDtype) (th : ThresholdConfig)
  (m : DataFrame) (out : Outputs) :
  engine_dtype dt th m = Finished out ->
  exists s g p u total,
    out_summary_table out = [s; g; p; u; total]
    /\ num_pharmacies s + num_pharmacies g + num_pharmacies p + num_pharmacies u
       = Z.of_nat (List.length (out_all_pharmacy_revenue out))
    /\ num_pharmacies total + num_pharmacies u
       = Z.of_nat (List.length (group_index dt (map Cod_CRM (rows m)))).
Proof.
  intros Hout. apply engine_dtype_inv in Hout as [_ ->].
  set (t := assign_categories th (groupby_sum_observed_False dt (rows m))).
  exists (summary_row_of Silver t), (summary_row_of Gold t),
    (summary_row_of Platinum t), (summary_row_of Unassigned t),
    (total_row (no_unassigned (summary_by_category t))).
  cbn [build_tables out_summary_table out_all_pharmacy_revenue]. fold t.
  split; [reflexivity|].
  assert (Hlen : List.length t
                 = List.length (group_index dt (map Cod_CRM (rows m)))).
  { unfold t. rewrite assign_categories_map. unfold groupby_sum_observed_False.
    now rewrite !length_map. }
  pose proof (all_categories_count t) as Hc.
  split; [exact Hc|].
  rewrite summary_by_category_rows. unfold no_unassigned, total_row.
  cbn [filter summary_row_of sr_partnership_category category_name String.eqb
       Ascii.eqb Bool.eqb negb map num_pharmacies total_revenue].
  unfold sum_Z. cbn [fold_right]. rewrite <- Hlen. lia.
Qed.

Lemma X3_summary_accounts_for_all_witness :
  exists s g p u total,
    out_summary_table (build_tables default_thresholds [("A", 500); ("B", 0); ("C", 2500)])
    = [s; g; p; u; total]
    /\ num_pharmacies s + num_pharmacies g + num_pharmacies p + num_pharmacies u = 3
    /\ num_pharmacies total + num_pharmacies u = 3.
Proof.
  assert (H : engine_dtype categorical_abc default_thresholds returns_and_sales
              = Finished (build_tables default_thresholds
                            [("A", 500); ("B", 0); ("C", 2500)])) by reflexivity.
  destruct (X3_summary_accounts_for_all categorical_abc default_thresholds
              returns_and_sales _ H) as (s & g & p & u & total & H1 & H2 & H3).
  exists s, g, p, u, total. split; [exact H1|]. split; [exact H2|exact H3].
Defined.

(** X14.  The Tier 2 / Tier 3 revenue frame.  On a text identifier column
    it has a row for a pharmacy exactly when one of its rows is labelled
    "Tier 2" or "Tier 3", so the left merge leaves the others with a
    missing value, not 0.  On a categorical identifier column it has a row
    for every category, and a pharmacy without such a row has the value
    0. *)
Theorem X14_tier23_revenue (dt : KeyDtype) (m : DataFrame) (r23 : list (string * Z))
  (k : string) :
  rev_tier23_dtype dt m = Ok r23 ->
  match dt with
  | Object =>
      lookup_key k r23 = None <-> has_tier23_row (rows m) k = false
  | Categorical categories =>
      In k categories ->
      lookup_key k r23 <> None
      /\ (has_tier23_row (rows m) k = false -> lookup_key k r23 = Some 0)
  end.
Proof.
  intros H. rewrite rev_tier23_dtype_unfold in H.
  destruct (has_column m col_tier); [|discriminate].
  destruct (has_column m col_Cod_CRM); [|discriminate].
  destruct (has_column m col_Net_Price_1_Revenue); [|discriminate].
  injection H as <-. unfold groupby_sum_observed_False. rewrite lookup_key_map.
  assert (Hrow : has_tier23_row (rows m) k = true
                 <-> exists r, In r (filter in_tier23 (rows m)) /\ Cod_CRM r = Some k).
  { unfold has_tier23_row. rewrite existsb_exists. split.
    - intros (r & Hr & Hb). apply andb_true_iff in Hb as [Hk Ht].
      exists r. split; [now apply filter_In|now apply key_is_true].
    - intros (r & Hr & Hk). apply filter_In in Hr as [Hr Ht].
      exists r. split; [exact Hr|]. apply andb_true_iff. split; [|exact Ht].
      now apply key_is_true. }
  destruct dt as [|categories]; cbn [group_index].
  - destruct (existsb _ _) eqn:Hex.
    + apply existsb_eqb_In, group_keys_In, Hrow in Hex. rewrite Hex.
      split; discriminate.
    + split; [intros _|reflexivity].
      apply not_true_is_false. intros E.
      apply Hrow, group_keys_In, existsb_eqb_In in E. congruence.
  - intros Hk. apply existsb_eqb_In in Hk. rewrite Hk. split; [discriminate|].
    intros Hnone. do 2 f_equal. rewrite group_rows_nil; [reflexivity|].
    intros r Hr Hkr.
    assert (E : has_tier23_row (rows m) k = true) by (apply Hrow; eauto).
    congruence.
Qed.

Lemma X14_tier23_revenue_witness :
  (lookup_key "A" [("B", 1510); ("C", 2500)] = None
   <-> has_tier23_row (rows example_filtered) "A" = false)
  /\ lookup_key "A" [("A", 0); ("B", 1510); ("C", 2500)] = Some 0.
Proof.
  assert (H1 : rev_tier23_dtype Object example_filtered
               = Ok [("B", 1510); ("C", 2500)]) by reflexivity.
  assert (H2 : rev_tier23_dtype categorical_abc example_filtered
               = Ok [("A", 0); ("B", 1510); ("C", 2500)]) by reflexivity.
  split.
  - exact (X14_tier23_revenue Object example_filtered _ "A" H1).
  - apply (X14_tier23_revenue categorical_abc example_filtered _ "A" H2);
      [cbn; auto|reflexivity].
Defined.

(** X15.  The count of a row of [tier_counts] is the number of distinct
    brands of that pharmacy in that tier.  When both key columns are text
    it has one row for each pair of a pharmacy and a tier label that
    occurs together on some row, and no pair twice, so the pivot meets no
    duplicate entry.  As soon as one of them is categorical it has a row
    for every pair of a group key of the one and a group key of the
    other, whether the pair occurs or not. *)
Theorem X15_tier_counts_rows (dt dt_tier : KeyDtype) (m : DataFrame)
  (tc : list TierCount) :
  tier_counts_dtype dt dt_tier m = Ok tc ->
  (forall c, In c tc ->
             num_products c = distinct_products (rows m) (tc_Cod_CRM c) (tc_tier c)
             /\ 0 <= num_products c)
  /\ match dt, dt_tier with
     | Object, Object =>
         NoDup (map tc_keys tc)
         /\ forall k t, In (k, t) (map tc_keys tc)
                        <-> exists r, In r (rows m) /\ Cod_CRM r = Some k
                                      /\ tier r = Some t
     | _, _ =>
         map tc_keys tc
         = list_prod (group_index dt (map Cod_CRM (rows m)))
                     (group_index dt_tier (map tier (rows m)))
     end.
Proof.
  intros H. rewrite tier_counts_dtype_unfold in H.
  destruct (has_column m col_Cod_CRM); [|discriminate].
  destruct (has_column m col_tier); [|discriminate].
  destruct (has_column m col_Brand); [|discriminate].
  injection H as <-.
  assert (Hpos : forall k t, 0 <= distinct_products (rows m) k t).
  { intros k t. unfold distinct_products, nunique. lia. }
  assert (Hprod :
    forall ks ts,
      let tc := flat_map
                  (fun k => map (fun t => {| tc_Cod_CRM := k; tc_tier := t;
                                             num_products :=
                                               distinct_products (rows m) k t |}) ts)
                  ks in
      (forall c, In c tc ->
                 num_products c = distinct_products (rows m) (tc_Cod_CRM c) (tc_tier c)
                 /\ 0 <= num_products c)
      /\ map tc_keys tc = list_prod ks ts).
  { intros ks ts tc. split.
    - intros c Hc. apply in_flat_map in Hc as (k & _ & Hc).
      apply in_map_iff in Hc as (t & <- & _). cbn. split; [reflexivity|apply Hpos].
    - unfold tc. induction ks as [|k ks IH]; [reflexivity|].
      cbn [flat_map list_prod]. rewrite map_app, IH. f_equal.
      rewrite map_map. reflexivity. }
  destruct dt as [|cs], dt_tier as [|cs']; cbn [groupby_nunique_default];
    try apply Hprod.
  split.
  - intros c Hc. apply groupby_nunique_In in Hc as [_ ->]. split; [reflexivity|apply Hpos].
  - split; [apply groupby_nunique_keys_NoDup|]. intros k t. rewrite in_map_iff. split.
    + intros (c & [= <- <-] & Hc). now apply groupby_nunique_tier_In.
    + intros Hr.
      exists {| tc_Cod_CRM := k; tc_tier := t;
                num_products := distinct_products (rows m) k t |}.
      split; [reflexivity|]. apply groupby_nunique_In. split; [exact Hr|reflexivity].
Qed.

Lemma X15_tier_counts_rows_witness :
  exists tc,
    tier_counts_dtype categorical_abc Object example_filtered = Ok tc
    /\ map tc_keys tc
       = [ ("A", "Tier 1"); ("A", "Tier 2"); ("A", "Tier 3");
           ("B", "Tier 1"); ("B", "Tier 2"); ("B", "Tier 3");
           ("C", "Tier 1"); ("C", "Tier 2"); ("C", "Tier 3") ]
    /\ map num_products tc = [0; 0; 0; 1; 2; 0; 0; 0; 1].
Proof.
  eexists. split; [reflexivity|].
  split; [|reflexivity].
  exact (proj2 (X15_tier_counts_rows categorical_abc Object example_filtered _ eq_refl)).
Defined.

(** ** When a run finishes *)

(** X11.  On a table none of whose tier labels is the name of a column
    that the labels are merged with, the sibling script finishes exactly
    when the table has the eight columns it reads (the four of the fixed
    rule and the four of the aggregator), and [app.py] exactly when the
    table has these and [Canale] and none of its filter columns mixes
    text with missing cells.  [Product_Type] is never required, and
    neither the thresholds nor the selections nor the dtype of the
    identifier column can make a run stop. *)
Theorem X11_runs_succeed_iff_columns (dt : KeyDtype) (df : DataFrame)
  (sel : Selections) (th : ThresholdConfig) :
  labels_clear (rows df) = true ->
  (finishes (app_script_dtype dt df sel th)
   <-> widgets_sortable df = true
       /\ has_columns df (filter_columns ++ aggregator_columns) = true)
  /\ (finishes (simulation_script_dtype dt df th)
      <-> has_columns df (fixed_rule_columns ++ aggregator_columns) = true).
Proof.
  intros Hc. unfold has_columns. rewrite !forallb_app, !andb_true_iff. split.
  - unfold app_script_dtype. destruct (widgets_sortable df).
    2:{ split; [intros (out & Hout); discriminate|intros [H _]; discriminate]. }
    destruct (forallb (has_column df) filter_columns) eqn:Hf.
    + rewrite record_filter_ok by exact Hf.
      rewrite engine_dtype_finishes_iff by (cbn [rows]; now apply labels_clear_filter).
      unfold has_columns, has_column. cbn [columns]. tauto.
    + destruct (record_filter_raises df sel Hf) as (e & ->).
      split; [intros (out & Hout); discriminate|intros [_ [? _]]; discriminate].
  - unfold simulation_script_dtype.
    destruct (forallb (has_column df) fixed_rule_columns) eqn:Hf.
    + rewrite merged_pharmacies_ok by exact Hf.
      rewrite engine_dtype_finishes_iff.
      * unfold has_columns, has_column. cbn [columns]. tauto.
      * cbn [rows]. now apply labels_clear_filter.
    + destruct (merged_pharmacies_raises df Hf) as (c & _ & ->).
      split; [intros (out & Hout); discriminate|intros [? _]; discriminate].
Qed.

Lemma X11_runs_succeed_iff_columns_witness :
  finishes (app_script_dtype categorical_abc table_without_Product_Type no_picks
              default_thresholds)
  /\ ~ finishes (app_script_dtype Object table_with_blank_Canale no_picks
                   default_thresholds)
  /\ finishes (simulation_script_dtype Object table_with_blank_Canale default_thresholds).
Proof.
  split; [|split].
  - apply (proj1 (X11_runs_succeed_iff_columns categorical_abc
                    table_without_Product_Type no_picks default_thresholds eq_refl)).
    split; reflexivity.
  - intros H.
    apply (proj1 (X11_runs_succeed_iff_columns Object table_with_blank_Canale
                    no_picks default_thresholds eq_refl)) in H.
    destruct H as [H _]. discriminate H.
  - apply (proj2 (X11_runs_succeed_iff_columns Object table_with_blank_Canale no_picks
                    default_thresholds eq_refl)). reflexivity.
Defined.

(** ** The merged frame *)

Lemma aggregator_dtype_inv (dt : KeyDtype) (m : DataFrame) (fr : Frames) :
  aggregator_dtype dt m = Finished fr ->
  exists p,
    reset_index (fillna 0 (pivot (groupby_nunique_default dt Object (rows m))))
    = Finished p
    /\ threshold_data_frame (groupby_sum_observed_False dt (rows m)) p
         (groupby_sum_observed_False dt (filter in_tier23 (rows m)))
       = Finished (fr_threshold_data fr)
    /\ fr_all_pharmacy_revenue fr = groupby_sum_observed_False dt (rows m)
    /\ fr_rev_tier23 fr = groupby_sum_observed_False dt (filter in_tier23 (rows m))
    /\ fr_tier_counts fr = groupby_nunique_default dt Object (rows m).
Proof.
  unfold aggregator_dtype, raised.
  rewrite all_pharmacy_revenue_dtype_unfold, rev_tier23_dtype_unfold,
    tier_counts_dtype_unfold.
  destruct (has_column m col_Cod_CRM); [|discriminate].
  destruct (has_column m col_Net_Price_1_Revenue); [|discriminate].
  destruct (has_column m col_tier); [|discriminate].
  destruct (has_column m col_Brand); [|discriminate].
  destruct (reset_index _) as [p|f]; [|discriminate].
  destruct (threshold_data_frame _ _ _) as [td|f] eqn:Htd; [|discriminate].
  intros [= <-]. exists p. cbn. auto.
Qed.

Lemma index_of_not_In (name : string) (cols : list string) :
  ~ In name cols -> index_of name cols = None.
Proof.
  induction cols as [|c cols IH]; [reflexivity|]. cbn [index_of In]. intros H.
  destruct (String.eqb c name) eqn:E.
  - apply String.eqb_eq in E. tauto.
  - rewrite IH; tauto.
Qed.

Lemma add_series_length (s1 s2 : list (option Z)) :
  List.length s1 = List.length s2 ->
  List.length (add_series s1 s2) = List.length s1.
Proof.
  revert s2. induction s1 as [|a s1 IH]; intros [|b s2] H; try discriminate;
    [reflexivity|].
  cbn [add_series List.length]. f_equal. apply IH. now injection H.
Qed.

(** The combined count has one cell per row of the frame. *)
Lemma combined_count_length (f : KeyedFrame) (a b : string) :
  List.length
    match add (get_column f a 0) (get_column f b 0) with
    | Series s => s
    | Scalar z => map (fun _ => Some z) (kf_rows f)
    end
  = List.length (kf_rows f).
Proof.
  unfold get_column.
  destruct (index_of a (kf_columns f)), (index_of b (kf_columns f)); cbn [add];
    rewrite ?length_map; try reflexivity.
  rewrite add_series_length by now rewrite !length_map.
  apply length_map.
Qed.

Lemma appended_column (F : string * Z -> list (option Z)) (apr : list (string * Z))
  (cells : list (option Z)) :
  List.length cells = List.length apr ->
  let rows' :=
    map (fun rc : (string * list (option Z)) * option Z =>
           (fst (fst rc), (snd (fst rc) ++ [snd rc])%list))
        (combine (map (fun kv => (fst kv, Some (snd kv) :: F kv)) apr) cells) in
  map (fun kr => (fst kr, nth 0 (snd kr) None)) rows'
  = map (fun kv => (fst kv, Some (snd kv))) apr
  /\ forall kr, In kr rows' ->
                exists kv, In kv apr /\ List.length (snd kr) = S (S (List.length (F kv))).
Proof.
  revert cells. induction apr as [|kv apr IH]; intros [|c cells] H; try discriminate.
  - split; [reflexivity|]. intros kr [].
  - injection H as H. destruct (IH cells H) as [IH1 IH2].
    cbn [map combine fst snd app nth]. split.
    + f_equal. exact IH1.
    + intros kr [<-|Hin].
      * exists kv. split; [now left|]. cbn [snd List.length].
        rewrite length_app. cbn [List.length]. lia.
      * destruct (IH2 kr Hin) as (kv' & Hkv & Hlen). exists kv'. split; [now right|exact Hlen].
Qed.

Lemma pivot_frame_cells_length (tc : list TierCount) (k : string) :
  List.length (match lookup_key k (tier_rows (fillna 0 (pivot tc))) with
               | Some cells => cells
               | None => map (fun _ => None) (tier_columns (fillna 0 (pivot tc)))
               end)
  = List.length (tier_columns (fillna 0 (pivot tc))).
Proof. exact (pivot_cells_length tc k). Qed.

(** X13.  When no tier label is the name of a column of the merged frame
    ([Cod CRM], the two revenue columns, "Tier 2 & 3"), [threshold_data]
    keeps the revenue frame as it is: the two left merges neither drop nor
    double a row, and it has the same pharmacies with the same totals in
    the same order.  Its columns are the total, the tier labels of
    [tier_counts] in increasing order, the Tier 2 / Tier 3 revenue and
    the combined count, under their own names, and every row has one cell
    for each. *)
Theorem X13_threshold_data_keeps_frame (dt : KeyDtype) (m : DataFrame) (fr : Frames) :
  aggregator_dtype dt m = Finished fr ->
  labels_clear (rows m) = true ->
  ~ In (Some "Tier 2 & 3") (map tier (rows m)) ->
  kf_columns (fr_threshold_data fr)
  = ("total_net1rev_imponibile"
     :: sorted_unique (map tc_tier (fr_tier_counts fr))
     ++ ["tier23_net1rev_imponibile"; "Tier 2 & 3"])%list
  /\ map (fun kr => (fst kr, nth 0 (snd kr) None)) (kf_rows (fr_threshold_data fr))
     = map (fun kv => (fst kv, Some (snd kv))) (fr_all_pharmacy_revenue fr)
  /\ (forall kr, In kr (kf_rows (fr_threshold_data fr)) ->
                 List.length (snd kr) = List.length (kf_columns (fr_threshold_data fr)))
  /\ (forall t, In t (map tc_tier (fr_tier_counts fr)) -> In (Some t) (map tier (rows m))).
Proof.
  intros Hfr Hc H23.
  apply aggregator_dtype_inv in Hfr as (p & Hp & Htd & -> & _ & ->).
  set (tc := groupby_nunique_default dt Object (rows m)) in *.
  assert (Hlab : forall t, In t (tier_columns (fillna 0 (pivot tc))) ->
                           In (Some t) (map tier (rows m))).
  { intros t. apply tier_counts_labels. }
  assert (Hl : forall name, In name reserved_names ->
                            ~ In name (tier_columns (fillna 0 (pivot tc)))).
  { intros name Hn Hin. apply Hlab in Hin.
    now apply (labels_clear_In (rows m) name Hc Hin). }
  rewrite reset_index_Finished in Hp by (apply Hl; cbn; auto).
  injection Hp as <-.
  rewrite threshold_data_frame_clear in Htd
    by (cbn [kf_columns]; apply Hl; cbn; auto).
  cbv zeta in Htd. injection Htd as <-.
  cbn [kf_columns kf_rows] in *. rewrite pivot_labels in *.
  set (labels := sorted_unique (map tc_tier tc)) in *.
  match goal with
  | |- context [set_column ?M _ _] => set (m2 := M) in *
  end.
  assert (Hidx : index_of "Tier 2 & 3" (kf_columns m2) = None).
  { apply index_of_not_In. unfold m2. cbn [kf_columns].
    intros [Hx|Hin]; [discriminate Hx|].
    apply in_app_iff in Hin as [Hin|[Hx|[]]]; [|discriminate Hx].
    apply H23. now apply Hlab. }
  unfold set_column. rewrite Hidx.
  pose proof (combined_count_length m2 "Tier 2" "Tier 3") as Hlen.
  set (cells := match add (get_column m2 "Tier 2" 0) (get_column m2 "Tier 3" 0) with
                | Series s => s
                | Scalar z => map (fun _ => Some z) (kf_rows m2)
                end) in *.
  clearbody cells. unfold m2 in *. clear m2 Hidx.
  cbn [kf_columns kf_rows] in *. rewrite length_map in Hlen.
  destruct (appended_column
              (fun kv => (match lookup_key (fst kv) (tier_rows (fillna 0 (pivot tc))) with
                          | Some cells => cells
                          | None => map (fun _ => None) labels
                          end
                          ++ [lookup_key (fst kv)
                                (groupby_sum_observed_False dt
                                   (filter in_tier23 (rows m)))])%list)
              (groupby_sum_observed_False dt (rows m)) cells Hlen) as [H1 H2].
  split; [|split; [exact H1|split]].
  - cbn [app]. now rewrite <- app_assoc.
  - intros kr Hkr. destruct (H2 kr Hkr) as (kv & _ & ->).
    rewrite length_app. cbn [List.length]. rewrite !length_app. cbn [List.length].
    pose proof (pivot_frame_cells_length tc (fst kv)) as Hcells.
    rewrite pivot_labels in Hcells. fold labels in Hcells.
    rewrite Hcells, ?length_app. cbn [List.length]. lia.
  - intros t Ht. apply Hlab. unfold labels. now apply sorted_unique_In.
Qed.

Lemma X13_threshold_data_keeps_frame_witness :
  exists fr,
    aggregator_dtype Object example_filtered = Finished fr
    /\ kf_columns (fr_threshold_data fr)
       = [ "total_net1rev_imponibile"; "Tier 1"; "Tier 2"; "Tier 3";
           "tier23_net1rev_imponibile"; "Tier 2 & 3" ]
    /\ kf_rows (fr_threshold_data fr)
       = [ ("A", [Some 500; None; None; None; None; None]);
           ("B", [Some 1520; Some 1; Some 2; Some 0; Some 1510; Some 2]);
           ("C", [Some 2500; Some 0; Some 0; Some 1; Some 2500; Some 1]) ].
Proof.
  eexists. split; [reflexivity|]. split; [|reflexivity].
  refine (proj1 (X13_threshold_data_keeps_frame Object example_filtered _
                   eq_refl eq_refl _)).
  cbn. intros [H|[H|[H|[H|[H|[]]]]]]; discriminate H.
Defined.

(** * The run store *)

Lemma run_name_injective (a b : nat) : run_name a = run_name b -> a = b.
Proof.
  unfold run_name. cbn [append]. intros [= H].
  rewrite <- (DecimalNat.Unsigned.of_to a), <- (DecimalNat.Unsigned.of_to b).
  f_equal.
  pose proof (NilEmpty.usu (Nat.to_uint a)) as Ha.
  pose proof (NilEmpty.usu (Nat.to_uint b)) as Hb.
  rewrite H in Ha. congruence.
Qed.

(** An assignment to a key the dictionary does not have appends it. *)
Lemma dict_set_fresh {A : Type} (k : string) (v : A) (d : list (string * A)) :
  ~ In k (map fst d) -> dict_set k v d = (d ++ [(k, v)])%list.
Proof.
  induction d as [|[k' v'] d IH]; simpl; intros Hk; [reflexivity|].
  destruct (String.eqb k' k) eqn:E.
  - apply String.eqb_eq in E. tauto.
  - rewrite IH by tauto. reflexivity.
Qed.

(** The invariant of the store: the keys are run_1, ..., run_n in order. *)
Lemma next_run_name_fresh (runs : list (string * RunRecord)) :
  map fst runs = map run_name (seq 1 (List.length runs)) ->
  ~ In (run_name (S (List.length runs))) (map fst runs).
Proof.
  intros Hinv Hin. rewrite Hinv in Hin.
  apply in_map_iff in Hin as (i & Hi & Hin).
  apply run_name_injective in Hi. subst i.
  apply in_seq in Hin. lia.
Qed.

Lemma rerun_keeps_names (e : Rerun) (runs : list (string * RunRecord)) :
  map fst runs = map run_name (seq 1 (List.length runs)) ->
  map fst (rerun e runs) = map run_name (seq 1 (List.length (rerun e runs))).
Proof.
  intros Hinv. unfold rerun.
  destruct (uploaded_file e) as [df|]; [|exact Hinv].
  destruct (app_script df (picks e) (sidebar e)) as [out| |err];
    [|exact Hinv|exact Hinv].
  destruct (pressed e); [|reflexivity|exact Hinv].
  rewrite dict_set_fresh by now apply next_run_name_fresh.
  rewrite length_app, map_app. cbn [List.length map fst].
  rewrite Nat.add_1_r, seq_S, map_app, <- Hinv. reflexivity.
Qed.

Lemma session_snoc (es : list Rerun) (e : Rerun) :
  session (es ++ [e])%list = rerun e (session es).
Proof. unfold session. now rewrite fold_left_app. Qed.

Lemma session_names (es : list Rerun) :
  map fst (session es) = map run_name (seq 1 (List.length (session es))).
Proof.
  induction es as [|e es IH] using rev_ind; [reflexivity|].
  rewrite session_snoc. now apply rerun_keeps_names.
Qed.

(** X16.  Whatever the executions of a session were (stores, clears,
    executions that failed or had no file), the identifiers of the stored
    runs are run_1, run_2, ..., run_n in the order they were stored, with
    n the number of stored runs; in particular they are distinct. *)
Theorem X16_run_identifiers (es : list Rerun) :
  map fst (session es) = map run_name (seq 1 (List.length (session es)))
  /\ NoDup (map fst (session es)).
Proof.
  split; [apply session_names|]. rewrite session_names.
  apply NoDup_map_injective; [exact run_name_injective|apply seq_NoDup].
Qed.








Lemma X4_category_pivot_round_trip_witness :
  nth_error order 1 = Some Gold
  /\ dropna (pivot_column (category_table_pivot (category_table example_classified)) 1)
     = ["B"; "D"].
Proof.
  assert (H : nth_error order 1 = Some Gold) by reflexivity.
  split; [exact H|].
  rewrite (proj1 (proj2 (X4_category_pivot_round_trip example_classified)) 1%nat Gold H).
  reflexivity.
Defined.
